(** * Zonal pixel counts per polygon: a shallow embedding of
      [pixel_counter.py] and [pixel_counter_functions.py]

    The development follows the two Python modules:
    - [bbox_to_pixel_offsets] (pixel_counter.py, lines 36-49);
    - [zonal_stats] (pixel_counter.py, lines 53-168);
    - [get_nlcd_counts] (pixel_counter_functions.py, lines 4-43).

    Conventions of the embedding.
    - Python floats are binary64 numbers.  [Binary64.bbox_to_pixel_offsets]
      is the window function as Python evaluates it, on the kernel's
      binary64 floats: the subtraction and the division round, a quotient
      can be infinite or NaN, and [int] refuses those.
    - [zonal_stats] is followed in exact arithmetic: the geotransform
      coefficients, the envelope coordinates and the no-data value are
      rationals [Q] (every finite binary64 value is one), and the window
      function it calls is [bbox_to_pixel_offsets], the same expressions
      without the rounding.  The properties of runs are stated in terms of
      the window this function returns.
    - Python exceptions are values of [PyError]; a computation that may raise
      has type [result A].
    - [zonal_stats] reads raster windows; the computation type [M] threads the
      log of the windows handed to the raster band, so that "no window was
      read" can be stated.
    - numpy arrays are a shape together with a row-major buffer.
    - GDAL/OGR are collaborators of the program, not part of it.  What the
      program observes of them is collected in the class [OSGeo]; the
      window read of a raster band and the in-memory raster driver follow
      GDAL's documented behaviour and are written out below. *)

From Stdlib Require Import PrimFloat SpecFloat FloatOps.
From Stdlib Require Import String ZArith QArith Qround Qreduction Bool List Lia Lqa.
Import ListNotations.

Local Open Scope Z_scope.

(* ------------------------------------------------------------------ *)
(** ** Python values, exceptions *)

Inductive PyError : Type :=
| AssertionError      (* [assert rds] *)
| AttributeError      (* a method called on [None] *)
| KeyError            (* [feat.GetField] on a field the layer does not have *)
| MaskError           (* [np.ma.MaskedArray]: mask and data not compatible *)
| OverflowError       (* [int] of an infinite float *)
| ValueError          (* numpy: negative dimensions, shapes not broadcastable;
                         [int] of a NaN *)
| ZeroDivisionError.  (* float division by zero *)

Inductive result (A : Type) : Type :=
| Ok (a : A)
| Raise (e : PyError).
Arguments Ok {A} a.
Arguments Raise {A} e.

Definition rbind {A B} (r : result A) (k : A -> result B) : result B :=
  match r with
  | Ok a => k a
  | Raise e => Raise e
  end.

Notation "x <-? e ; k" := (rbind e (fun x => k))
  (at level 61, e at next level, right associativity).

(** Values stored in the dictionaries the program builds. *)
Inductive PyVal : Type :=
| PyInt (z : Z)
| PyStr (s : string)
| PyNone.

(** A Python [dict] with string keys, in insertion order. *)
Definition PyDict := list (string * PyVal).

Fixpoint dict_get (d : PyDict) (key : string) : option PyVal :=
  match d with
  | [] => None
  | (k, v) :: d' => if String.eqb k key then Some v else dict_get d' key
  end.

(* ------------------------------------------------------------------ *)
(** ** Raster window reads as an effect *)

(** [(xoff, yoff, xsize, ysize)] *)
Definition Window := (Z * Z * Z * Z)%type.

(** The log of the windows requested from the raster band, oldest first. *)
Definition IOLog := list Window.

Definition M (A : Type) : Type := IOLog -> result A * IOLog.

Definition ret {A} (a : A) : M A := fun log => (Ok a, log).
Definition raise {A} (e : PyError) : M A := fun log => (Raise e, log).
Definition bind {A B} (m : M A) (k : A -> M B) : M B :=
  fun log =>
    match m log with
    | (Ok a, log') => k a log'
    | (Raise e, log') => (Raise e, log')
    end.
Definition lift {A} (r : result A) : M A := fun log => (r, log).
Definition log_read (w : Window) : M unit := fun log => (Ok tt, log ++ [w]).

Notation "x <- e ;; k" := (bind e (fun x => k))
  (at level 61, e at next level, right associativity).
Notation "' pat <- e ;; k" := (bind e (fun x => match x with pat => k end))
  (at level 61, pat pattern, e at next level, right associativity).

(** What the caller of a run sees: the returned value or the exception. *)
Definition outcome {A} (m : M A) : result A := fst (m []).
(** The windows a run requested from the raster band. *)
Definition reads {A} (m : M A) : IOLog := snd (m []).

(* ------------------------------------------------------------------ *)
(** ** numpy arrays *)

Record ndarray (A : Type) : Type := mk_ndarray {
  shape : nat * nat;        (* (rows, columns) *)
  data : list A             (* row-major buffer *)
}.
Arguments mk_ndarray {A}.
Arguments shape {A}.
Arguments data {A}.

Definition ndmap {A B} (f : A -> B) (a : ndarray A) : ndarray B :=
  mk_ndarray (shape a) (map f (data a)).

Fixpoint map2 {A B C} (f : A -> B -> C) (l : list A) (l' : list B) : list C :=
  match l, l' with
  | a :: t, b :: t' => f a b :: map2 f t t'
  | _, _ => []
  end.

Definition shape_eqb (s s' : nat * nat) : bool :=
  Nat.eqb (fst s) (fst s') && Nat.eqb (snd s) (snd s').

(** [zseq start len] is [start, start+1, ..., start+len-1]. *)
Definition zseq (start : Z) (len : nat) : list Z :=
  map (fun k => start + Z.of_nat k) (seq 0 len).

(** The array with [rows] rows and [cols] columns whose cell in row [r],
    column [c] (counted from [y0] and [x0]) is [f c r]. *)
Definition tabulate {A} (f : Z -> Z -> A) (x0 y0 : Z) (cols rows : nat) : ndarray A :=
  mk_ndarray (rows, cols)
    (flat_map (fun r => map (fun c => f c r) (zseq x0 cols)) (zseq y0 rows)).

(** The value of [src_array == nodata_value]: an elementwise comparison when
    [src_array] is an array, the comparison of two Python objects when it is
    [None]. *)
Inductive Comparison : Type :=
| Scalar (b : bool)
| Elementwise (a : ndarray bool).

Definition cell_eq_nodata (nodata_value : option Q) (v : Z) : bool :=
  match nodata_value with
  | Some q => Qeq_bool (inject_Z v) q
  | None => false                       (* a number never equals [None] *)
  end.

Definition eq_nodata (src_array : option (ndarray Z)) (nodata_value : option Q) : Comparison :=
  match src_array with
  | Some a => Elementwise (ndmap (cell_eq_nodata nodata_value) a)
  | None => Scalar (match nodata_value with None => true | Some _ => false end)
  end.

(** [np.logical_not] on the burnt raster: zero is false, anything else true. *)
Definition np_logical_not (a : ndarray Z) : ndarray bool :=
  ndmap (fun v => Z.eqb v 0) a.

(** [np.logical_or]; a scalar operand is broadcast, two arrays must agree in
    shape. *)
Definition np_logical_or (x : Comparison) (y : ndarray bool) : result (ndarray bool) :=
  match x with
  | Scalar b => Ok (ndmap (orb b) y)
  | Elementwise a =>
      if shape_eqb (shape a) (shape y)
      then Ok (mk_ndarray (shape y) (map2 orb (data a) (data y)))
      else Raise ValueError
  end.

(** A masked array: each cell is its datum and its mask bit.  The datum is
    [None] only for the one-cell object array that [np.array(None)] is. *)
Definition MaskedArray := list (option Z * bool).

(** [np.ma.MaskedArray(data, mask=mask)].  [data] is turned into an array
    first ([None] becomes a single object cell); a mask of another shape is
    resized when it has one cell, reshaped when it has as many cells as the
    data, and rejected otherwise. *)
Definition np_ma_MaskedArray (src_array : option (ndarray Z)) (mask : ndarray bool)
  : result MaskedArray :=
  let _data := match src_array with
               | Some a => map Some (data a)
               | None => [None]
               end in
  match data mask with
  | [m] => Ok (map (fun d => (d, m)) _data)
  | ms => if Nat.eqb (length ms) (length _data)
          then Ok (combine _data ms)
          else Raise MaskError
  end.

(** [masked.count()]: the number of cells that are not masked. *)
Definition ma_count (masked : MaskedArray) : Z :=
  Z.of_nat (length (filter (fun c => negb (snd c)) masked)).

Definition datum_eqb (d : option Z) (code : Z) : bool :=
  match d with
  | Some v => Z.eqb v code
  | None => false
  end.

(** [np.count_nonzero(masked == [code])]: the comparison yields false in
    every masked cell, so the cells counted are the unmasked ones whose
    datum is [code]. *)
Definition count_nonzero_eq (masked : MaskedArray) (code : Z) : Z :=
  Z.of_nat (length (filter (fun c => negb (snd c) && datum_eqb (fst c) code) masked)).

(* ------------------------------------------------------------------ *)
(** ** pixel_counter.py, lines 36-49 *)

(** [(gt[0], gt[1], gt[2], gt[3], gt[4], gt[5])] *)
Definition GeoTransform := (Q * Q * Q * Q * Q * Q)%type.
(** [(minX, maxX, minY, maxY)], the order of OGR envelopes and extents. *)
Definition BBox := (Q * Q * Q * Q)%type.

(** Python's [int] on a finite float: the fractional part is dropped. *)
Definition py_int (q : Q) : Z := Z.quot (Qnum q) (Zpos (Qden q)).

(** Float division, without the rounding of the quotient. *)
Definition py_div (a b : Q) : result Q :=
  if Qeq_bool b 0 then Raise ZeroDivisionError else Ok (a / b)%Q.

(** The function in exact arithmetic. *)
Definition bbox_to_pixel_offsets (gt : GeoTransform) (bbox : BBox) : result Window :=
  let '(gt0, gt1, _, gt3, _, gt5) := gt in
  let '(bbox0, bbox1, bbox2, bbox3) := bbox in
  let originX := gt0 in
  let originY := gt3 in
  let pixel_width := gt1 in
  let pixel_height := gt5 in
  qx1 <-? py_div (bbox0 - originX)%Q pixel_width ;
  let x1 := py_int qx1 in
  qx2 <-? py_div (bbox1 - originX)%Q pixel_width ;
  let x2 := py_int qx2 + 1 in
  qy1 <-? py_div (bbox3 - originY)%Q pixel_height ;
  let y1 := py_int qy1 in
  qy2 <-? py_div (bbox2 - originY)%Q pixel_height ;
  let y2 := py_int qy2 + 1 in
  let xsize := x2 - x1 in
  let ysize := y2 - y1 in
  Ok (x1, y1, xsize, ysize).

(** The function in binary64 arithmetic, as Python evaluates it. *)
Module Binary64.

Definition GeoTransform := (float * float * float * float * float * float)%type.
Definition BBox := (float * float * float * float)%type.

(** A float is finite when it is neither an infinity nor a NaN. *)
Definition finite (x : float) : bool :=
  match Prim2SF x with
  | S754_infinity _ | S754_nan => false
  | _ => true
  end.

(** The rational number a finite float stands for: sign, mantissa and
    exponent as [Prim2SF] decodes them. *)
Definition value (x : float) : Q :=
  match Prim2SF x with
  | S754_finite s m e => (inject_Z (if s then Z.neg m else Z.pos m) * Qpower 2 e)%Q
  | _ => 0%Q
  end.

(** Python's [int] on a float: the fractional part of a finite float is
    dropped; an infinity and a NaN are refused. *)
Definition int (x : float) : result Z :=
  match Prim2SF x with
  | S754_infinity _ => Raise OverflowError
  | S754_nan => Raise ValueError
  | _ => Ok (py_int (value x))
  end.

(** Float division: a zero divisor, of either sign, is refused; the
    quotient is rounded to the nearest float. *)
Definition truediv (a b : float) : result float :=
  if PrimFloat.eqb b 0 then Raise ZeroDivisionError else Ok (a / b)%float.

Definition bbox_to_pixel_offsets (gt : GeoTransform) (bbox : BBox) : result Window :=
  let '(gt0, gt1, _, gt3, _, gt5) := gt in
  let '(bbox0, bbox1, bbox2, bbox3) := bbox in
  let originX := gt0 in
  let originY := gt3 in
  let pixel_width := gt1 in
  let pixel_height := gt5 in
  qx1 <-? truediv (bbox0 - originX)%float pixel_width ;
  x1 <-? int qx1 ;
  qx2 <-? truediv (bbox1 - originX)%float pixel_width ;
  ix2 <-? int qx2 ;
  let x2 := ix2 + 1 in
  qy1 <-? truediv (bbox3 - originY)%float pixel_height ;
  y1 <-? int qy1 ;
  qy2 <-? truediv (bbox2 - originY)%float pixel_height ;
  iy2 <-? int qy2 ;
  let y2 := iy2 + 1 in
  let xsize := x2 - x1 in
  let ysize := y2 - y1 in
  Ok (x1, y1, xsize, ysize).

(** The float the code hands to [int] for the coordinate [a]:
    [(a - origin) / pixel_size]. *)
Definition quotient (a origin pixel_size : float) : float :=
  ((a - origin) / pixel_size)%float.

(** 0.1 and 0.5 as binary64 numbers. *)
Definition tenth : float := 0x1.999999999999ap-4%float.
Definition half : float := 0x1p-1%float.

End Binary64.

(* ------------------------------------------------------------------ *)
(** ** The GDAL/OGR objects the program handles *)

(** A single-band raster dataset.  [pixel c r] is the stored value in column
    [c], row [r]. *)
Record Dataset : Type := {
  RasterXSize : Z;
  RasterYSize : Z;
  GetGeoTransform : GeoTransform;
  pixel : Z -> Z -> Z
}.

Record Band : Type := {
  band_of : Dataset;
  NoDataValue : option Q
}.

Definition GetRasterBand (rds : Dataset) : Band :=
  {| band_of := rds; NoDataValue := None |}.

Definition SetNoDataValue (rb : Band) (v : Q) : Band :=
  {| band_of := band_of rb; NoDataValue := Some v |}.

Definition window_in_raster (rds : Dataset) (w : Window) : bool :=
  let '(xoff, yoff, xsize, ysize) := w in
  (0 <=? xoff) && (0 <=? yoff)
  && (xoff + xsize <=? RasterXSize rds) && (yoff + ysize <=? RasterYSize rds).

(** [rb.ReadAsArray(xoff, yoff, xsize, ysize)].  The buffer is allocated
    first, which numpy refuses for a negative size; an empty window is a
    no-op that leaves the empty buffer; a window that is not inside the
    raster is an I/O error, reported (exceptions are not enabled) by
    returning [None]. The stored no-data value plays no part in the read. *)
Definition ReadAsArray (rb : Band) (w : Window) : M (option (ndarray Z)) :=
  let '(xoff, yoff, xsize, ysize) := w in
  if (xsize <? 0) || (ysize <? 0) then raise ValueError
  else
    _ <- log_read w ;;
    if (xsize =? 0) || (ysize =? 0) || window_in_raster (band_of rb) w
    then ret (Some (tabulate (pixel (band_of rb)) xoff yoff
                             (Z.to_nat xsize) (Z.to_nat ysize)))
    else ret None.

(** [driver.Create('', xsize, ysize, 1, gdal.GDT_Byte)] for the in-memory
    driver: a zero-filled one-band raster when both sizes are positive.
    With a size that is not positive there is no raster to burn into and
    the feature yields no record.  How the run ends then is GDAL's affair:
    a refused size gives [None], and an [AttributeError] at the next line;
    an accepted empty raster stops the process in [gdal.RasterizeLayer].
    The model takes the first. *)
Definition driver_Create (xsize ysize : Z) : option (nat * nat) :=
  if (1 <=? xsize) && (1 <=? ysize)
  then Some (Z.to_nat xsize, Z.to_nat ysize)
  else None.

Section OSGeo.

Context {Geometry : Type}.

(** [fields] lists the fields of the feature definition, which a feature
    read from a layer shares with the layer and with every other feature of
    it, each with the value this feature has for it, [PyNone] when it has
    none. *)
Record Feature : Type := {
  GetFID : Z;
  fields : list (string * PyVal);     (* field name, value *)
  geometry : Geometry
}.

(** [feat.GetField(name)] raises when the feature definition has no field
    of that name; a field that is defined but unset reads as [PyNone]. *)
Definition GetField (feat : Feature) (name : string) : result PyVal :=
  match dict_get (fields feat) name with
  | Some v => Ok v
  | None => Raise KeyError
  end.

Record Layer : Type := {
  features : list Feature;            (* in [GetNextFeature] order *)
  GetExtent : BBox
}.

Definition DataSource := list Layer.

(** What the program observes of the libraries beyond the objects above. *)
Class OSGeo : Type := {
  (** [gdal.Open(path, GA_ReadOnly)], [None] when the raster cannot be opened *)
  gdal_Open : string -> option Dataset;
  (** [ogr.Open(path)] *)
  ogr_Open : string -> option DataSource;
  (** [geom.GetEnvelope()] *)
  GetEnvelope : Geometry -> BBox;
  (** [burns gt g c r]: rasterizing [g] into a raster with geotransform [gt]
      burns the cell in column [c], row [r] *)
  burns : GeoTransform -> Geometry -> Z -> Z -> bool
}.

Context {osgeo : OSGeo}.

(** [gdal.RasterizeLayer(rvds, [1], mem_layer, burn_values=[1])] followed by
    [rvds.ReadAsArray()], for a zero-filled [rvds] of the given size. *)
Definition RasterizeLayer (size : nat * nat) (gt : GeoTransform) (mem_layer : list Feature)
  : ndarray Z :=
  tabulate (fun c r => if existsb (fun f => burns gt (geometry f) c r) mem_layer
                       then 1 else 0)
           0 0 (fst size) (snd size).

(* ------------------------------------------------------------------ *)
(** ** pixel_counter_functions.py, lines 4-43 *)

Definition get_nlcd_counts (feat : Feature) (masked : MaskedArray) : result PyDict :=
  hydro <-? GetField feat "HydroID" ;
  Ok [ ("FID", PyInt (GetFID feat));
       ("HydroID", hydro);
       ("TotalPixels", PyInt (ma_count masked));
       ("lulc_11", PyInt (count_nonzero_eq masked 11));
       ("lulc_12", PyInt (count_nonzero_eq masked 12));
       ("lulc_21", PyInt (count_nonzero_eq masked 21));
       ("lulc_22", PyInt (count_nonzero_eq masked 22));
       ("lulc_23", PyInt (count_nonzero_eq masked 23));
       ("lulc_24", PyInt (count_nonzero_eq masked 24));
       ("lulc_31", PyInt (count_nonzero_eq masked 31));
       ("lulc_41", PyInt (count_nonzero_eq masked 41));
       ("lulc_42", PyInt (count_nonzero_eq masked 42));
       ("lulc_43", PyInt (count_nonzero_eq masked 43));
       ("lulc_51", PyInt (count_nonzero_eq masked 51));
       ("lulc_52", PyInt (count_nonzero_eq masked 52));
       ("lulc_71", PyInt (count_nonzero_eq masked 71));
       ("lulc_72", PyInt (count_nonzero_eq masked 72));
       ("lulc_73", PyInt (count_nonzero_eq masked 73));
       ("lulc_74", PyInt (count_nonzero_eq masked 74));
       ("lulc_81", PyInt (count_nonzero_eq masked 81));
       ("lulc_82", PyInt (count_nonzero_eq masked 82));
       ("lulc_90", PyInt (count_nonzero_eq masked 90));
       ("lulc_95", PyInt (count_nonzero_eq masked 95));
       ("lulc_1", PyInt (count_nonzero_eq masked 11 + count_nonzero_eq masked 12));
       ("lulc_2", PyInt (count_nonzero_eq masked 21 + count_nonzero_eq masked 22
                         + count_nonzero_eq masked 23 + count_nonzero_eq masked 24));
       ("lulc_3", PyInt (count_nonzero_eq masked 31));
       ("lulc_4", PyInt (count_nonzero_eq masked 41 + count_nonzero_eq masked 42
                         + count_nonzero_eq masked 43));
       ("lulc_5", PyInt (count_nonzero_eq masked 51 + count_nonzero_eq masked 52));
       ("lulc_7", PyInt (count_nonzero_eq masked 71 + count_nonzero_eq masked 72
                         + count_nonzero_eq masked 73 + count_nonzero_eq masked 74));
       ("lulc_8", PyInt (count_nonzero_eq masked 81 + count_nonzero_eq masked 82));
       ("lulc_9", PyInt (count_nonzero_eq masked 90 + count_nonzero_eq masked 95)) ]%string.

(* ------------------------------------------------------------------ *)
(** ** pixel_counter.py, lines 53-168 *)

(** Python truth value of [nodata_value]: [None] and zero are false. *)
Definition truthy (nodata_value : option Q) : bool :=
  match nodata_value with
  | Some q => negb (Qeq_bool q 0)
  | None => false
  end.

(** Lines 77-84 and 104-111: the geotransform of the window read. *)
Definition subset_geotransform (rgt : GeoTransform) (src_offset : Window) : GeoTransform :=
  let '(rgt0, rgt1, _, rgt3, _, rgt5) := rgt in
  let '(src_offset0, src_offset1, _, _) := src_offset in
  ((rgt0 + (inject_Z src_offset0 * rgt1))%Q,
   rgt1,
   0%Q,
   (rgt3 + (inject_Z src_offset1 * rgt5))%Q,
   0%Q,
   rgt5).

(** The three variables [src_offset], [src_array], [new_gt]. *)
Definition Source := (Window * option (ndarray Z) * GeoTransform)%type.

(** Lines 73-84 (with the layer extent) and 100-111 (with the envelope of the
    feature). *)
Definition read_source (rb : Band) (rgt : GeoTransform) (bbox : BBox) : M Source :=
  src_offset <- lift (bbox_to_pixel_offsets rgt bbox) ;;
  src_array <- ReadAsArray rb src_offset ;;
  let new_gt := subset_geotransform rgt src_offset in
  ret (src_offset, src_array, new_gt).

(** Lines 127-133: the mask handed to [np.ma.MaskedArray]. *)
Definition exclusion_mask (src_array : option (ndarray Z)) (nodata_value : option Q)
    (rv_array : ndarray Z) : result (ndarray bool) :=
  np_logical_or (eq_nodata src_array nodata_value) (np_logical_not rv_array).

(** Lines 135-159: the dictionary of one feature. *)
Definition feature_stats (feat : Feature) (masked : MaskedArray) : result PyDict :=
  hydro <-? GetField feat "HydroID" ;
  Ok [ ("FID", PyInt (GetFID feat));
       ("HydroID", hydro);
       ("TotalPixels", PyInt (ma_count masked));
       ("11", PyInt (count_nonzero_eq masked 11));
       ("12", PyInt (count_nonzero_eq masked 12));
       ("21", PyInt (count_nonzero_eq masked 21));
       ("22", PyInt (count_nonzero_eq masked 22));
       ("23", PyInt (count_nonzero_eq masked 23));
       ("24", PyInt (count_nonzero_eq masked 24));
       ("31", PyInt (count_nonzero_eq masked 31));
       ("41", PyInt (count_nonzero_eq masked 41));
       ("42", PyInt (count_nonzero_eq masked 42));
       ("43", PyInt (count_nonzero_eq masked 43));
       ("51", PyInt (count_nonzero_eq masked 51));
       ("52", PyInt (count_nonzero_eq masked 52));
       ("71", PyInt (count_nonzero_eq masked 71));
       ("72", PyInt (count_nonzero_eq masked 72));
       ("73", PyInt (count_nonzero_eq masked 73));
       ("74", PyInt (count_nonzero_eq masked 74));
       ("81", PyInt (count_nonzero_eq masked 81));
       ("82", PyInt (count_nonzero_eq masked 82));
       ("90", PyInt (count_nonzero_eq masked 90));
       ("95", PyInt (count_nonzero_eq masked 95)) ]%string.

(** Lines 95-160: the body of the loop for one feature.  [global_source] is
    the source read before the loop when [global_src_extent] is set, and
    [None] otherwise. *)
Definition process_feature (rb : Band) (rgt : GeoTransform) (nodata_value : option Q)
    (global_source : option Source) (feat : Feature) : M PyDict :=
  '(src_offset, src_array, new_gt) <-
     match global_source with
     | None => read_source rb rgt (GetEnvelope (geometry feat))
     | Some source => ret source
     end ;;
  let '(_, _, src_offset2, src_offset3) := src_offset in
  let mem_layer := [feat] in
  match driver_Create src_offset2 src_offset3 with
  | None => raise AttributeError          (* [rvds.SetGeoTransform] on [None] *)
  | Some rvds =>
      let rv_array := RasterizeLayer rvds new_gt mem_layer in
      mask <- lift (exclusion_mask src_array nodata_value rv_array) ;;
      masked <- lift (np_ma_MaskedArray src_array mask) ;;
      lift (feature_stats feat masked)
  end.

(** Lines 91-93 and 160-164: the loop over the features of the layer. *)
Fixpoint feature_loop (rb : Band) (rgt : GeoTransform) (nodata_value : option Q)
    (global_source : option Source) (feats : list Feature) (stats : list PyDict)
  : M (list PyDict) :=
  match feats with
  | [] => ret stats
  | feat :: rest =>
      feature_stats <- process_feature rb rgt nodata_value global_source feat ;;
      feature_loop rb rgt nodata_value global_source rest (stats ++ [feature_stats])
  end.

Definition zonal_stats (vector_path raster_path : string) (nodata_value : option Q)
    (global_src_extent : bool) : M (list PyDict) :=
  match gdal_Open raster_path with
  | None => raise AssertionError
  | Some rds =>
      let rb := GetRasterBand rds in
      let rgt := GetGeoTransform rds in
      (* [nodata_value = float(nodata_value)] leaves a rational as it is *)
      let rb := if truthy nodata_value
                then match nodata_value with
                     | Some v => SetNoDataValue rb v
                     | None => rb
                     end
                else rb in
      match ogr_Open vector_path with
      | None => raise AttributeError      (* [vds.GetLayer] on [None] *)
      | Some vds =>
          match nth_error vds 0 with
          | None => raise AttributeError  (* a method of [vlyr] on [None] *)
          | Some vlyr =>
              global_source <-
                (if global_src_extent
                 then source <- read_source rb rgt (GetExtent vlyr) ;; ret (Some source)
                 else ret None) ;;
              feature_loop rb rgt nodata_value global_source (features vlyr) []
          end
      end
  end.

End OSGeo.

Arguments Feature : clear implicits.
Arguments Layer : clear implicits.
Arguments DataSource : clear implicits.
Arguments OSGeo : clear implicits.

(* ------------------------------------------------------------------ *)
(** ** Reference collaborators

    A concrete [OSGeo] on which runs of [zonal_stats] can be evaluated:
    polygons are rings of vertices, the envelope is the hull of the vertices,
    a cell is burnt when its centre is inside the ring (even-odd rule), and
    the file system is a pair of named files. *)

Definition Polygon := list (Q * Q).

Definition qmin (a b : Q) : Q := if Qle_bool a b then a else b.
Definition qmax (a b : Q) : Q := if Qle_bool a b then b else a.
Definition qltb (a b : Q) : bool := negb (Qle_bool b a).

Definition polygon_envelope (p : Polygon) : BBox :=
  match p with
  | [] => (0, 0, 0, 0)%Q
  | (x, y) :: rest =>
      fold_left (fun (e : BBox) (v : Q * Q) =>
                   let '(minX, maxX, minY, maxY) := e in
                   (qmin minX (fst v), qmax maxX (fst v),
                    qmin minY (snd v), qmax maxY (snd v)))
                rest (x, x, y, y)
  end.

(** Does the edge from [a] to [b] cross the half-line going right from
    [(px, py)]? *)
Definition edge_crosses (px py : Q) (a b : Q * Q) : bool :=
  let '(xi, yi) := a in
  let '(xj, yj) := b in
  negb (Bool.eqb (qltb py yi) (qltb py yj))
  && qltb px ((xj - xi) * (py - yi) / (yj - yi) + xi)%Q.

Fixpoint crossing_parity (px py : Q) (prev : Q * Q) (vs : list (Q * Q)) : bool :=
  match vs with
  | [] => false
  | v :: rest => xorb (edge_crosses px py prev v) (crossing_parity px py v rest)
  end.

Definition polygon_contains (p : Polygon) (px py : Q) : bool :=
  match p with
  | [] => false
  | v0 :: _ => crossing_parity px py (last p v0) p
  end.

Definition in_bbox (e : BBox) (px py : Q) : bool :=
  let '(minX, maxX, minY, maxY) := e in
  Qle_bool minX px && Qle_bool px maxX && Qle_bool minY py && Qle_bool py maxY.

(** The centre of the cell in column [c], row [r]. *)
Definition cell_centre (gt : GeoTransform) (c r : Z) : Q * Q :=
  let '(gt0, gt1, gt2, gt3, gt4, gt5) := gt in
  let u := (inject_Z c + (1 # 2))%Q in
  let v := (inject_Z r + (1 # 2))%Q in
  (Qred (gt0 + u * gt1 + v * gt2), Qred (gt3 + u * gt4 + v * gt5)).

Definition centre_burns (gt : GeoTransform) (p : Polygon) (c r : Z) : bool :=
  let '(px, py) := cell_centre gt c r in
  in_bbox (polygon_envelope p) px py && polygon_contains p px py.

(** The extent of a layer: the hull of the envelopes of its features. *)
Definition hull (e e' : BBox) : BBox :=
  let '(minX, maxX, minY, maxY) := e in
  let '(minX', maxX', minY', maxY') := e' in
  (qmin minX minX', qmax maxX maxX', qmin minY minY', qmax maxY maxY').

Definition layer_of (feats : list (Feature Polygon)) : Layer Polygon :=
  {| features := feats;
     GetExtent := match feats with
                  | [] => (0, 0, 0, 0)%Q
                  | f :: rest =>
                      fold_left (fun e g => hull e (polygon_envelope (geometry g)))
                                rest (polygon_envelope (geometry f))
                  end |}.

(** A file system holding the raster ["raster.tif"] and the one-layer vector
    file ["polygons.shp"]. *)
Definition files (rds : Dataset) (feats : list (Feature Polygon)) : OSGeo Polygon :=
  {| gdal_Open := fun path => if String.eqb path "raster.tif" then Some rds else None;
     ogr_Open := fun path => if String.eqb path "polygons.shp"
                             then Some [layer_of feats] else None;
     GetEnvelope := polygon_envelope;
     burns := centre_burns |}.

(** Fixtures: a north-up raster of constant value with unit cells whose
    upper-left corner is at [(0, ysize)], and axis-parallel rectangles. *)
Definition constant_raster (xsize ysize value : Z) : Dataset :=
  {| RasterXSize := xsize;
     RasterYSize := ysize;
     GetGeoTransform := (0, 1, 0, inject_Z ysize, 0, -(1))%Q;
     pixel := fun _ _ => value |}.

Definition rectangle (minX maxX minY maxY : Q) : Polygon :=
  [(minX, minY); (maxX, minY); (maxX, maxY); (minX, maxY)].

Definition polygon_feature (fid : Z) (hydro_id : Z) (p : Polygon) : Feature Polygon :=
  {| GetFID := fid; fields := [("HydroID"%string, PyInt hydro_id)]; geometry := p |}.

(** A feature of a layer whose only field is GridCode, and a feature of a
    layer with the field HydroID that has no value for it. *)
Definition bare_feature (fid : Z) (p : Polygon) : Feature Polygon :=
  {| GetFID := fid; fields := [("GridCode"%string, PyInt 0)]; geometry := p |}.


Definition run (rds : Dataset) (feats : list (Feature Polygon)) (nodata_value : option Q)
    (global_src_extent : bool) : M (list PyDict) :=
  @zonal_stats Polygon (files rds feats) "polygons.shp" "raster.tif"
               nodata_value global_src_extent.

(* ------------------------------------------------------------------ *)
(** ** Vocabulary of the specification *)

(** [z] is [q] with its fractional part dropped: the integer nearest to zero
    among the two that enclose [q]. *)
Definition truncates_toward_zero (q : Q) (z : Z) : Prop :=
  ((0 <= q -> inject_Z z <= q /\ q < inject_Z z + 1)
   /\ (q <= 0 -> inject_Z z - 1 < q /\ q <= inject_Z z))%Q.

(** The 20 enumerated class codes. *)
Definition nlcd_codes : list Z :=
  [11; 12; 21; 22; 23; 24; 31; 41; 42; 43; 51; 52; 71; 72; 73; 74; 81; 82; 90; 95].

(** The keys under which [zonal_stats] and [get_nlcd_counts] store the
    per-class counts, in the order of [nlcd_codes]. *)
Definition class_keys : list string :=
  ["11"; "12"; "21"; "22"; "23"; "24"; "31"; "41"; "42"; "43";
   "51"; "52"; "71"; "72"; "73"; "74"; "81"; "82"; "90"; "95"]%string.

Definition lulc_keys : list string :=
  ["lulc_11"; "lulc_12"; "lulc_21"; "lulc_22"; "lulc_23"; "lulc_24"; "lulc_31";
   "lulc_41"; "lulc_42"; "lulc_43"; "lulc_51"; "lulc_52"; "lulc_71"; "lulc_72";
   "lulc_73"; "lulc_74"; "lulc_81"; "lulc_82"; "lulc_90"; "lulc_95"]%string.

(** The integer stored under a key, if there is one. *)
Definition dict_int (d : PyDict) (key : string) : option Z :=
  match dict_get d key with
  | Some (PyInt z) => Some z
  | _ => None
  end.

(** The sum of the integers stored under the keys; [None] if one is missing. *)
Fixpoint sum_of (d : PyDict) (keys : list string) : option Z :=
  match keys with
  | [] => Some 0
  | k :: keys' =>
      match dict_int d k, sum_of d keys' with
      | Some z, Some s => Some (z + s)
      | _, _ => None
      end
  end.

(** The data of the cells that are not excluded. *)
Definition unmasked (masked : MaskedArray) : list (option Z) :=
  map fst (filter (fun c => negb (snd c)) masked).

Definition enumerated (d : option Z) : Prop :=
  exists code, In code nlcd_codes /\ d = Some code.

Definition enumeratedb (d : option Z) : bool :=
  existsb (datum_eqb d) nlcd_codes.

(** The sum of the per-class counts of a masked array. *)
Definition class_total (masked : MaskedArray) (codes : list Z) : Z :=
  fold_right (fun code acc => count_nonzero_eq masked code + acc) 0 codes.

(** The coverage mask is true where the polygon was burnt. *)
Definition coverage (burnt : Z) : bool := negb (Z.eqb burnt 0).

(** [excluded[i] = (raster[i] == nodata) OR (NOT coverage[i])]; without a
    no-data value the first clause is false. *)
Definition excluded_cell (nodata : option Q) (raster_value : Z) (cov : bool) : bool :=
  match nodata with
  | Some q => Qeq_bool (inject_Z raster_value) q || negb cov
  | None => negb cov
  end.

(** The group count is stored and equals the sum of the member counts. *)
Definition group_sum (d : PyDict) (group : string) (members : list string) : Prop :=
  exists z, dict_int d group = Some z /\ sum_of d members = Some z.

(** The cells of a grid of [rows] rows and [cols] columns, row by row. *)
Definition grid {A} (cell : nat -> nat -> A) (cols rows : nat) : list A :=
  flat_map (fun i => map (fun j => cell j i) (seq 0 cols)) (seq 0 rows).

(** The masked array of a window that was read from the raster: the cell in
    column [j], row [i] of the window holds the raster value at
    [(xoff + j, yoff + i)] and is excluded when that value equals the no-data
    value or the cell is not burnt. *)
Definition window_masked (rds : Dataset) (nodata : option Q) (burnt : Z -> Z -> bool)
    (w : Window) : MaskedArray :=
  let '(xoff, yoff, xsize, ysize) := w in
  grid (fun j i =>
          let v := pixel rds (xoff + Z.of_nat j) (yoff + Z.of_nat i) in
          (Some v, cell_eq_nodata nodata v || negb (burnt (Z.of_nat j) (Z.of_nat i))))
       (Z.to_nat xsize) (Z.to_nat ysize).

(** [minX <= maxX] and [minY <= maxY]. *)
Definition bbox_ordered (e : BBox) : Prop :=
  let '(minX, maxX, minY, maxY) := e in
  (minX <= maxX /\ minY <= maxY)%Q.

(** The box [e] lies within the box [e']. *)
Definition bbox_within (e e' : BBox) : Prop :=
  let '(minX, maxX, minY, maxY) := e in
  let '(minX', maxX', minY', maxY') := e' in
  (minX' <= minX /\ maxX <= maxX' /\ minY' <= minY /\ maxY <= maxY')%Q.




(** The record belongs to the feature: same FID, same join key. *)
Definition record_of {Geometry} (feat : Feature Geometry) (d : PyDict) : Prop :=
  dict_get d "FID" = Some (PyInt (GetFID feat))
  /\ GetField feat "HydroID" = Ok (match dict_get d "HydroID" with
                                   | Some v => v
                                   | None => PyNone
                                   end)
  /\ exists masked, feature_stats feat masked = Ok d.

(* ------------------------------------------------------------------ *)
(** ** The remaining code of the two modules *)

(** pixel_counter_functions.py, lines 46-51: the two stubs return [None]. *)
Definition get_levee_counts {Geometry} (feat : Feature Geometry) (masked : MaskedArray)
  : PyVal := PyNone.

Definition get_bridge_counts {A} (feat_masked : A) : PyVal := PyNone.

(** pixel_counter.py, line 191: the call of the command line entry point,
    [stats = zonal_stats(vector, raster)], which leaves [nodata_value] and
    [global_src_extent] at their defaults. *)
Definition main_stats {Geometry} {osgeo : OSGeo Geometry} (vector raster : string)
  : M (list PyDict) :=
  zonal_stats vector raster None false.

(** ** Further vocabulary *)

(** The keys of a record of [zonal_stats], in the order of the literal. *)
Definition record_keys : list string :=
  ["FID"; "HydroID"; "TotalPixels"]%string ++ class_keys.

(** The keys of the grouped counts of [get_nlcd_counts]. *)
Definition group_keys : list string :=
  ["lulc_1"; "lulc_2"; "lulc_3"; "lulc_4"; "lulc_5"; "lulc_7"; "lulc_8"; "lulc_9"]%string.

(** [(c, r)] is a cell of the window. *)
Definition in_window (w : Window) (c r : Z) : Prop :=
  let '(xoff, yoff, xsize, ysize) := w in
  xoff <= c < xoff + xsize /\ yoff <= r < yoff + ysize.

(** The number of cells the rasterizer burns in a raster of the given size
    and geotransform. *)
Definition burnt_cells {Geometry} {osgeo : OSGeo Geometry} (gt : GeoTransform)
    (g : Geometry) (xsize ysize : Z) : Z :=
  Z.of_nat (length (filter (fun b : bool => b)
                           (grid (fun j i => burns gt g (Z.of_nat j) (Z.of_nat i))
                                 (Z.to_nat xsize) (Z.to_nat ysize)))).

(** The same raster with other rotation terms in its geotransform. *)
Definition set_rotation (rotX rotY : Q) (rds : Dataset) : Dataset :=
  {| RasterXSize := RasterXSize rds;
     RasterYSize := RasterYSize rds;
     GetGeoTransform :=
       (let '(gt0, gt1, _, gt3, _, gt5) := GetGeoTransform rds in
        (gt0, gt1, rotX, gt3, rotY, gt5));
     pixel := pixel rds |}.

(** The same collaborators, except that every raster is opened with the
    given rotation terms. *)
Definition with_rotation {Geometry} (osgeo : OSGeo Geometry) (rotX rotY : Q)
  : OSGeo Geometry :=
  {| gdal_Open := fun path => option_map (set_rotation rotX rotY) (gdal_Open path);
     ogr_Open := ogr_Open;
     GetEnvelope := GetEnvelope;
     burns := burns |}.

(** The subtraction and the division that yield the quotient for the
    coordinate [a] did not round: the float is the quotient of the
    numbers. *)
Definition exact_quotient (a origin pixel_size : float) : Prop :=
  (Binary64.value (Binary64.quotient a origin pixel_size)
   == (Binary64.value a - Binary64.value origin) / Binary64.value pixel_size)%Q.


(** The pixel width or the pixel height is zero. *)
Definition zero_pixel_size (gt : GeoTransform) : Prop :=
  let '(_, gt1, _, _, _, gt5) := gt in
  (gt1 == 0 \/ gt5 == 0)%Q.

(** pixel_counter.py, lines 57-62: the band [zonal_stats] reads from. *)
Definition zonal_band (rds : Dataset) (nodata_value : option Q) : Band :=
  if truthy nodata_value
  then match nodata_value with
       | Some v => SetNoDataValue (GetRasterBand rds) v
       | None => GetRasterBand rds
       end
  else GetRasterBand rds.

(** A file system with a second vector file, ["other.shp"]. *)
Definition two_files (rds : Dataset) (feats feats' : list (Feature Polygon))
  : OSGeo Polygon :=
  {| gdal_Open := fun path => if String.eqb path "raster.tif" then Some rds else None;
     ogr_Open := fun path => if String.eqb path "polygons.shp"
                             then Some [layer_of feats]
                             else if String.eqb path "other.shp"
                                  then Some [layer_of feats']
                                  else None;
     GetEnvelope := polygon_envelope;
     burns := centre_burns |}.

(* ------------------------------------------------------------------ *)
(** * Properties *)

(** ** Truncation *)

Lemma py_int_nonneg (q : Q) : (0 <= q)%Q -> py_int q = Qfloor q.
Proof.
  destruct q as [n d]. unfold Qle, py_int, Qfloor. cbn. intros H.
  apply Z.quot_div_nonneg; lia.
Qed.

Lemma py_int_nonpos (q : Q) : (q <= 0)%Q -> py_int q = Qceiling q.
Proof.
  destruct q as [n d]. unfold Qle, py_int, Qceiling, Qfloor. cbn. intros H.
  rewrite <- (Z.opp_involutive n) at 1.
  rewrite Z.quot_opp_l by lia.
  f_equal. apply Z.quot_div_nonneg; lia.
Qed.

Lemma inject_Z_succ (z : Z) : (inject_Z (z + 1) == inject_Z z + 1)%Q.
Proof. rewrite inject_Z_plus. reflexivity. Qed.

Lemma inject_Z_pred (z : Z) : (inject_Z (z - 1) == inject_Z z - 1)%Q.
Proof. unfold Z.sub. rewrite inject_Z_plus. reflexivity. Qed.

Lemma py_int_truncates (q : Q) : truncates_toward_zero q (py_int q).
Proof.
  split; intros H.
  - rewrite (py_int_nonneg q H). split.
    + apply Qfloor_le.
    + rewrite <- inject_Z_succ. apply Qlt_floor.
  - rewrite (py_int_nonpos q H). split.
    + rewrite <- inject_Z_pred. apply Qceiling_lt.
    + apply Qle_ceiling.
Qed.

Lemma truncates_toward_zero_unique (q : Q) (z z' : Z) :
  truncates_toward_zero q z -> truncates_toward_zero q z' -> z = z'.
Proof.
  intros [Hp Hn] [Hp' Hn'].
  destruct (Qlt_le_dec q 0) as [Hlt | Hge].
  - destruct (Hn (Qlt_le_weak _ _ Hlt)) as [A B].
    destruct (Hn' (Qlt_le_weak _ _ Hlt)) as [A' B'].
    rewrite <- inject_Z_pred in A, A'.
    assert (L : (inject_Z (z - 1) < inject_Z z')%Q) by lra.
    assert (L' : (inject_Z (z' - 1) < inject_Z z)%Q) by lra.
    rewrite <- Zlt_Qlt in L, L'. lia.
  - destruct (Hp Hge) as [A B]. destruct (Hp' Hge) as [A' B'].
    rewrite <- inject_Z_succ in B, B'.
    assert (L : (inject_Z z < inject_Z (z' + 1))%Q) by lra.
    assert (L' : (inject_Z z' < inject_Z (z + 1))%Q) by lra.
    rewrite <- Zlt_Qlt in L, L'. lia.
Qed.

Lemma py_int_monotone (p q : Q) : (p <= q)%Q -> py_int p <= py_int q.
Proof.
  intros H.
  destruct (Qlt_le_dec p 0) as [Hp | Hp]; destruct (Qlt_le_dec q 0) as [Hq | Hq].
  - rewrite !py_int_nonpos by lra. now apply Qceiling_resp_le.
  - rewrite (py_int_nonpos p) by lra. rewrite (py_int_nonneg q) by lra.
    assert (Qceiling p <= 0).
    { change 0 with (Qceiling 0). apply Qceiling_resp_le. lra. }
    assert (0 <= Qfloor q).
    { change 0 with (Qfloor 0). now apply Qfloor_resp_le. }
    lia.
  - lra.
  - rewrite !py_int_nonneg by lra. now apply Qfloor_resp_le.
Qed.

Lemma py_div_nonzero (a b : Q) : ~ (b == 0)%Q -> py_div a b = Ok (a / b)%Q.
Proof.
  intros H. unfold py_div.
  destruct (Qeq_bool b 0) eqn:E; [ | reflexivity ].
  apply Qeq_bool_iff in E. contradiction.
Qed.

(** *** In binary64 arithmetic *)

Lemma int_finite (x : float) :
  Binary64.finite x = true -> Binary64.int x = Ok (py_int (Binary64.value x)).
Proof.
  unfold Binary64.finite, Binary64.int.
  destruct (Prim2SF x); intros H; [ reflexivity | discriminate | discriminate | reflexivity ].
Qed.

Lemma int_not_finite (x : float) :
  Binary64.finite x = false ->
  Binary64.int x = Raise OverflowError \/ Binary64.int x = Raise ValueError.
Proof.
  unfold Binary64.finite, Binary64.int.
  destruct (Prim2SF x); intros H; try discriminate; [ now left | now right ].
Qed.

Lemma truediv_nonzero (a b : float) :
  PrimFloat.eqb b 0 = false -> Binary64.truediv a b = Ok (a / b)%float.
Proof. intros H. unfold Binary64.truediv. now rewrite H. Qed.

Lemma truediv_zero (a b : float) :
  PrimFloat.eqb b 0 = true -> Binary64.truediv a b = Raise ZeroDivisionError.
Proof. intros H. unfold Binary64.truediv. now rewrite H. Qed.

(** C1, as the code behaves.  With non-zero pixel sizes and the four
    quotients [(minX - originX)/pixelWidth], [(maxX - originX)/pixelWidth],
    [(maxY - originY)/pixelHeight], [(minY - originY)/pixelHeight], as
    binary64 arithmetic yields them, finite, [bbox_to_pixel_offsets] returns
    [(x1, y1, x2 - x1, y2 - y1)] where [x1], [x2 - 1], [y1], [y2 - 1] are
    these four floats truncated toward zero.  The window depends on the
    geotransform and the box alone: no extent of a raster enters, so nothing
    is clamped. *)
Theorem bbox_to_pixel_offsets_binary64_truncates
    (originX pixelWidth rotX originY rotY pixelHeight minX maxX minY maxY : float) :
  PrimFloat.eqb pixelWidth 0 = false -> PrimFloat.eqb pixelHeight 0 = false ->
  Binary64.finite (Binary64.quotient minX originX pixelWidth) = true ->
  Binary64.finite (Binary64.quotient maxX originX pixelWidth) = true ->
  Binary64.finite (Binary64.quotient maxY originY pixelHeight) = true ->
  Binary64.finite (Binary64.quotient minY originY pixelHeight) = true ->
  exists x1 x2 y1 y2 : Z,
    Binary64.bbox_to_pixel_offsets
      (originX, pixelWidth, rotX, originY, rotY, pixelHeight) (minX, maxX, minY, maxY)
    = Ok (x1, y1, x2 - x1, y2 - y1)
    /\ truncates_toward_zero (Binary64.value (Binary64.quotient minX originX pixelWidth)) x1
    /\ truncates_toward_zero (Binary64.value (Binary64.quotient maxX originX pixelWidth))
                             (x2 - 1)
    /\ truncates_toward_zero (Binary64.value (Binary64.quotient maxY originY pixelHeight)) y1
    /\ truncates_toward_zero (Binary64.value (Binary64.quotient minY originY pixelHeight))
                             (y2 - 1).
Proof.
  intros Hw Hh F1 F2 F3 F4.
  exists (py_int (Binary64.value (Binary64.quotient minX originX pixelWidth))),
         (py_int (Binary64.value (Binary64.quotient maxX originX pixelWidth)) + 1),
         (py_int (Binary64.value (Binary64.quotient maxY originY pixelHeight))),
         (py_int (Binary64.value (Binary64.quotient minY originY pixelHeight)) + 1).
  split.
  - unfold Binary64.bbox_to_pixel_offsets.
    rewrite !(truediv_nonzero _ _ Hw), !(truediv_nonzero _ _ Hh). cbn [rbind].
    fold (Binary64.quotient minX originX pixelWidth).
    fold (Binary64.quotient maxX originX pixelWidth).
    fold (Binary64.quotient maxY originY pixelHeight).
    fold (Binary64.quotient minY originY pixelHeight).
    rewrite (int_finite _ F1), (int_finite _ F2), (int_finite _ F3), (int_finite _ F4).
    reflexivity.
  - rewrite !Z.add_simpl_r.
    split; [ apply py_int_truncates | ].
    split; [ apply py_int_truncates | ].
    split; apply py_int_truncates.
Qed.

(** A raster with cells of a tenth of a unit and a box that starts at 0.5:
    the quotient of the two floats rounds to 5.0 and the window starts at
    column 5. *)
Lemma bbox_to_pixel_offsets_binary64_truncates_witness :
  exists x1 x2 y1 y2 : Z,
    Binary64.bbox_to_pixel_offsets
      (0, Binary64.tenth, 0, 10, 0, - Binary64.tenth)%float
      (Binary64.half, 1, 9, 9.5)%float
    = Ok (x1, y1, x2 - x1, y2 - y1)
    /\ x1 = 5
    /\ truncates_toward_zero
         (Binary64.value (Binary64.quotient Binary64.half 0 Binary64.tenth)) x1.
Proof.
  destruct (bbox_to_pixel_offsets_binary64_truncates
              0 Binary64.tenth 0 10 0 (- Binary64.tenth) Binary64.half 1 9 9.5
              eq_refl eq_refl eq_refl eq_refl eq_refl eq_refl)
    as [x1 [x2 [y1 [y2 [E [T _]]]]]].
  exists x1, x2, y1, y2. split; [ exact E | ]. split; [ | exact T ].
  vm_compute in E. now injection E as <- _ _ _.
Defined.

(** C1 fails as stated.  With the non-zero pixel sizes [2^-1000] and
    [-2^-1000] and a box at [2^30] the first quotient is infinite and [int]
    raises [OverflowError]: no window is returned.  And where a window is
    returned, what is truncated is the rounded quotient: for the floats 0.5
    and 0.1 it is 5.0, while their exact quotient, just below 5, truncates
    to 4. *)
Lemma bbox_to_pixel_offsets_binary64_overflow :
  PrimFloat.eqb 0x1p-1000 0 = false
  /\ PrimFloat.eqb (- 0x1p-1000) 0 = false
  /\ Binary64.bbox_to_pixel_offsets (0, 0x1p-1000, 0, 0, 0, - 0x1p-1000)%float
                                    (0x1p30, 0x1p31, - 0x1p31, - 0x1p30)%float
     = Raise OverflowError
  /\ Binary64.int (Binary64.quotient Binary64.half 0 Binary64.tenth) = Ok 5
  /\ py_int (Binary64.value Binary64.half / Binary64.value Binary64.tenth) = 4.
Proof. repeat split; vm_compute; reflexivity. Qed.

(** The window of a box that straddles the origin starts at column -2, where
    rounding down would give -3; and it is returned as computed although it
    lies partly outside a 10 x 10 raster. *)
Example bbox_to_pixel_offsets_straddling :
  Binary64.bbox_to_pixel_offsets (0, 1, 0, 10, 0, -1)%float (-2.5, 3.5, -1.5, 4.5)%float
  = Ok (-2, 5, 6, 7)
  /\ Qfloor (Binary64.value (Binary64.quotient (-2.5) 0 1)) = -3
  /\ window_in_raster (constant_raster 10 10 0) (-2, 5, 6, 7) = false.
Proof. repeat split. Qed.

(** ** The exclusion mask *)

Lemma nth_error_map2 {A B C} (f : A -> B -> C) (l : list A) (l' : list B) (i : nat) a b :
  nth_error l i = Some a -> nth_error l' i = Some b ->
  nth_error (map2 f l l') i = Some (f a b).
Proof.
  revert l' i. induction l as [ | x l IH]; intros [ | y l'] [ | i]; cbn;
    try discriminate.
  - intros [= ->] [= ->]. reflexivity.
  - apply IH.
Qed.

Lemma shape_eqb_refl (s : nat * nat) : shape_eqb s s = true.
Proof. unfold shape_eqb. now rewrite !Nat.eqb_refl. Qed.

(** C2.  For a raster window and a burnt raster of equal shape the mask
    built before tabulation is, cell by cell,
    [(raster[i] == nodata) OR (NOT coverage[i])]; when no no-data value is
    given it is [NOT coverage[i]]. *)
Theorem exclusion_mask_cellwise (raster burnt : ndarray Z) (nodata : option Q) :
  shape raster = shape burnt ->
  exists excluded,
    exclusion_mask (Some raster) nodata burnt = Ok excluded
    /\ shape excluded = shape burnt
    /\ forall i v b,
         nth_error (data raster) i = Some v ->
         nth_error (data burnt) i = Some b ->
         nth_error (data excluded) i = Some (excluded_cell nodata v (coverage b))
         /\ (nodata = None ->
             nth_error (data excluded) i = Some (negb (coverage b))).
Proof.
  intros Hs. unfold exclusion_mask, eq_nodata, np_logical_or, np_logical_not, ndmap.
  cbn [shape data]. rewrite Hs, shape_eqb_refl.
  eexists. split; [ reflexivity | ]. split; [ reflexivity | ].
  cbn [data]. intros i v b Hv Hb.
  assert (E : nth_error (map2 orb (map (cell_eq_nodata nodata) (data raster))
                                  (map (fun v0 => v0 =? 0) (data burnt))) i
              = Some (cell_eq_nodata nodata v || (b =? 0))).
  { apply nth_error_map2.
    - now rewrite nth_error_map, Hv.
    - now rewrite nth_error_map, Hb. }
  rewrite E. unfold excluded_cell, coverage, cell_eq_nodata.
  rewrite negb_involutive.
  split.
  - destruct nodata; reflexivity.
  - intros ->. reflexivity.
Qed.

Lemma exclusion_mask_cellwise_witness :
  exists excluded,
    exclusion_mask (Some (mk_ndarray (1, 3)%nat [21; 0; 21])) (Some 0%Q)
                   (mk_ndarray (1, 3)%nat [1; 1; 0]) = Ok excluded
    /\ nth_error (data excluded) 0 = Some false
    /\ nth_error (data excluded) 1 = Some true
    /\ nth_error (data excluded) 2 = Some true.
Proof.
  destruct (exclusion_mask_cellwise (mk_ndarray (1, 3)%nat [21; 0; 21])
                                    (mk_ndarray (1, 3)%nat [1; 1; 0]) (Some 0%Q) eq_refl)
    as [excluded [E [_ C]]].
  exists excluded. split; [ exact E | ].
  split; [ exact (proj1 (C 0%nat 21 1 eq_refl eq_refl)) | ].
  split; [ exact (proj1 (C 1%nat 0 1 eq_refl eq_refl)) | ].
  exact (proj1 (C 2%nat 21 0 eq_refl eq_refl)).
Defined.

(** ** Tabulation *)

Lemma count_nonzero_eq_cons (d : option Z) (m : bool) (t : MaskedArray) (code : Z) :
  count_nonzero_eq ((d, m) :: t) code
  = (if negb m && datum_eqb d code then 1 else 0) + count_nonzero_eq t code.
Proof.
  unfold count_nonzero_eq. cbn [filter fst snd].
  destruct (negb m && datum_eqb d code); cbn [length]; lia.
Qed.

Lemma class_total_cons (d : option Z) (m : bool) (t : MaskedArray) (codes : list Z) :
  class_total ((d, m) :: t) codes
  = (if negb m && existsb (datum_eqb d) codes then 1 else 0) + class_total t codes
    \/ ~ NoDup codes.
Proof.
  induction codes as [ | c codes IH].
  - left. cbn. now rewrite andb_false_r.
  - destruct (in_dec Z.eq_dec c codes) as [Hin | Hnin].
    { right. intros N. inversion N. contradiction. }
    destruct IH as [IH | IH]; [ left | right; intros N; inversion N; contradiction ].
    unfold class_total in *. cbn [fold_right existsb]. rewrite count_nonzero_eq_cons, IH.
    destruct m; cbn [negb andb]; [ lia | ].
    destruct (datum_eqb d c) eqn:E; cbn [orb]; [ | lia ].
    assert (X : existsb (datum_eqb d) codes = false).
    { destruct (existsb (datum_eqb d) codes) eqn:X; [ | reflexivity ].
      apply existsb_exists in X. destruct X as [c' [Hc' E']].
      destruct d as [v | ]; [ | discriminate ]. cbn in E, E'.
      apply Z.eqb_eq in E, E'. subst. contradiction. }
    rewrite X. lia.
Qed.

Lemma nlcd_codes_NoDup : NoDup nlcd_codes.
Proof.
  unfold nlcd_codes.
  repeat (constructor;
          [ cbn; intros H; repeat (destruct H as [H | H]; [ discriminate | ]); exact H | ]).
  constructor.
Qed.

Lemma enumeratedb_spec (d : option Z) : enumeratedb d = true <-> enumerated d.
Proof.
  unfold enumeratedb, enumerated. rewrite existsb_exists. split.
  - intros [c [Hc E]]. exists c. split; [ exact Hc | ].
    destruct d as [v | ]; [ | discriminate ]. cbn in E. apply Z.eqb_eq in E. now subst.
  - intros [c [Hc ->]]. exists c. split; [ exact Hc | ]. cbn. apply Z.eqb_refl.
Qed.

(** The unmasked cells are the classified ones plus those whose datum is not
    an enumerated code. *)
Lemma ma_count_split (masked : MaskedArray) :
  ma_count masked
  = class_total masked nlcd_codes
    + Z.of_nat (length (filter (fun d => negb (enumeratedb d)) (unmasked masked))).
Proof.
  induction masked as [ | [d m] t IH].
  - reflexivity.
  - destruct (class_total_cons d m t nlcd_codes) as [E | N];
      [ | exfalso; apply N, nlcd_codes_NoDup ].
    rewrite E. unfold ma_count, unmasked in *. cbn [filter snd].
    destruct m; cbn [negb andb map fst filter].
    + cbn [negb] in IH. lia.
    + fold (enumeratedb d). destruct (enumeratedb d); cbn [negb length]; lia.
Qed.

Lemma filter_nil_iff {A} (f : A -> bool) (l : list A) :
  filter f l = [] <-> Forall (fun a => f a = false) l.
Proof.
  induction l as [ | a l IH]; cbn.
  - split; constructor.
  - destruct (f a) eqn:E; split; intros H.
    + discriminate.
    + inversion H; congruence.
    + constructor; [ exact E | now apply IH ].
    + inversion H; now apply IH.
Qed.

Lemma unclassified_none_iff (masked : MaskedArray) :
  length (filter (fun d => negb (enumeratedb d)) (unmasked masked)) = 0%nat
  <-> Forall enumerated (unmasked masked).
Proof.
  rewrite length_zero_iff_nil, filter_nil_iff. rewrite !Forall_forall.
  split; intros H d Hd.
  - apply enumeratedb_spec. specialize (H d Hd). now apply negb_false_iff in H.
  - apply negb_false_iff, enumeratedb_spec, H, Hd.
Qed.

Lemma feature_stats_inv {Geometry} (feat : Feature Geometry) (masked : MaskedArray) (d : PyDict) :
  feature_stats feat masked = Ok d ->
  exists hydro,
    GetField feat "HydroID" = Ok hydro
    /\ dict_get d "FID" = Some (PyInt (GetFID feat))
    /\ dict_get d "HydroID" = Some hydro
    /\ dict_int d "TotalPixels" = Some (ma_count masked)
    /\ sum_of d class_keys = Some (class_total masked nlcd_codes).
Proof.
  unfold feature_stats. destruct (GetField feat "HydroID") as [hydro | e]; cbn [rbind].
  - intros [= <-]. exists hydro. repeat split.
  - discriminate.
Qed.

Lemma get_nlcd_counts_inv {Geometry} (feat : Feature Geometry) (masked : MaskedArray) (d : PyDict) :
  get_nlcd_counts feat masked = Ok d ->
  dict_int d "TotalPixels" = Some (ma_count masked)
  /\ sum_of d lulc_keys = Some (class_total masked nlcd_codes).
Proof.
  unfold get_nlcd_counts. destruct (GetField feat "HydroID") as [hydro | e]; cbn [rbind].
  - intros [= <-]. split; reflexivity.
  - discriminate.
Qed.

(** C3.  In a record built by either tabulator, [TotalPixels] is the number
    of cells that are not excluded; it is the sum of the 20 class counts plus
    the number of non-excluded cells whose value is not an enumerated code.
    Hence it is at least the sum of the class counts, with equality exactly
    when every non-excluded cell holds an enumerated code. *)
Theorem total_pixels_conservation {Geometry} (feat : Feature Geometry)
    (masked : MaskedArray) (d : PyDict) (keys : list string) :
  (feature_stats feat masked = Ok d /\ keys = class_keys)
  \/ (get_nlcd_counts feat masked = Ok d /\ keys = lulc_keys) ->
  exists total classes,
    dict_int d "TotalPixels" = Some total
    /\ sum_of d keys = Some classes
    /\ total = Z.of_nat (length (unmasked masked))
    /\ total = classes
               + Z.of_nat (length (filter (fun v => negb (enumeratedb v)) (unmasked masked)))
    /\ total >= classes
    /\ (total = classes <-> Forall enumerated (unmasked masked)).
Proof.
  intros H.
  assert (E : dict_int d "TotalPixels" = Some (ma_count masked)
              /\ sum_of d keys = Some (class_total masked nlcd_codes)).
  { destruct H as [[H ->] | [H ->]].
    - destruct (feature_stats_inv feat masked d H) as [_ [_ [_ [_ [T S]]]]]. now split.
    - now apply get_nlcd_counts_inv in H. }
  destruct E as [T S].
  exists (ma_count masked), (class_total masked nlcd_codes).
  pose proof (ma_count_split masked) as Sp.
  pose proof (unclassified_none_iff masked) as Z0.
  repeat split; try assumption.
  - unfold ma_count, unmasked. now rewrite length_map.
  - lia.
  - intros Eq. apply Z0. lia.
  - intros F. apply Z0 in F. lia.
Qed.

Lemma total_pixels_conservation_witness :
  exists d total classes,
    feature_stats (polygon_feature 0 7 [])
                  [(Some 21, false); (Some 5, false); (Some 11, true)] = Ok d
    /\ dict_int d "TotalPixels" = Some total
    /\ sum_of d class_keys = Some classes
    /\ total >= classes.
Proof.
  pose proof (total_pixels_conservation (polygon_feature 0 7 [])
                [(Some 21, false); (Some 5, false); (Some 11, true)]
                _ class_keys (or_introl (conj eq_refl eq_refl))) as H.
  destruct H as [total [classes [T [S [_ [_ [G _]]]]]]].
  eexists. exists total, classes.
  split; [ reflexivity | ]. split; [ exact T | ]. split; [ exact S | exact G ].
Defined.

(** C4.  In every record of [get_nlcd_counts] each group count is the sum of
    the counts of its subclasses, whatever the masked array. *)
Theorem group_sum_identity {Geometry} (feat : Feature Geometry)
    (masked : MaskedArray) (d : PyDict) :
  get_nlcd_counts feat masked = Ok d ->
  group_sum d "lulc_1" ["lulc_11"; "lulc_12"]%string
  /\ group_sum d "lulc_2" ["lulc_21"; "lulc_22"; "lulc_23"; "lulc_24"]%string
  /\ group_sum d "lulc_3" ["lulc_31"]%string
  /\ group_sum d "lulc_4" ["lulc_41"; "lulc_42"; "lulc_43"]%string
  /\ group_sum d "lulc_5" ["lulc_51"; "lulc_52"]%string
  /\ group_sum d "lulc_7" ["lulc_71"; "lulc_72"; "lulc_73"; "lulc_74"]%string
  /\ group_sum d "lulc_8" ["lulc_81"; "lulc_82"]%string
  /\ group_sum d "lulc_9" ["lulc_90"; "lulc_95"]%string.
Proof.
  unfold get_nlcd_counts. destruct (GetField feat "HydroID") as [hydro | e]; cbn [rbind];
    [ | discriminate ].
  intros [= <-]. unfold group_sum.
  repeat split; eexists; (split; [ reflexivity | cbn; f_equal; lia ]).
Qed.

Lemma group_sum_identity_witness :
  exists d,
    get_nlcd_counts (polygon_feature 0 7 []) [(Some 11, false); (Some 5, false)] = Ok d
    /\ group_sum d "lulc_1" ["lulc_11"; "lulc_12"]%string.
Proof.
  pose proof (group_sum_identity (polygon_feature 0 7 [])
                [(Some 11, false); (Some 5, false)] _ eq_refl) as [G _].
  eexists. split; [ reflexivity | exact G ].
Defined.

(** ** Sequencing *)

Lemma bind_Ok {A B} (m : M A) (k : A -> M B) (log log' : IOLog) (a : A) :
  m log = (Ok a, log') -> bind m k log = k a log'.
Proof. unfold bind. now intros ->. Qed.

Lemma bind_Raise {A B} (m : M A) (k : A -> M B) (log log' : IOLog) (e : PyError) :
  m log = (Raise e, log') -> bind m k log = (Raise e, log').
Proof. unfold bind. now intros ->. Qed.

(** ** The loop over the features *)

Section Orchestrator.

Context {Geometry : Type} {osgeo : OSGeo Geometry}.
Variables (rb : Band) (rgt : GeoTransform) (nodata_value : option Q).
Variable global_source : option Source.

Lemma process_feature_record (feat : Feature Geometry) (d : PyDict) (log log' : IOLog) :
  process_feature rb rgt nodata_value global_source feat log = (Ok d, log') ->
  record_of feat d.
Proof.
  unfold process_feature, bind.
  destruct (match global_source with
            | Some source => ret source
            | None => read_source rb rgt (GetEnvelope (geometry feat))
            end log) as [[[[src_offset src_array] new_gt] | e] log1];
    [ | discriminate ].
  destruct src_offset as [[[x y] w] h].
  destruct (driver_Create w h) as [rvds | ]; [ | discriminate ].
  unfold lift.
  destruct (exclusion_mask _ _ _) as [mask | e]; [ | discriminate ].
  destruct (np_ma_MaskedArray _ _) as [masked | e]; [ | discriminate ].
  intros [= H _].
  destruct (feature_stats_inv feat masked d H) as [hydro [G [F [Hy _]]]].
  unfold record_of. rewrite Hy, G. repeat split; [ exact F | ].
  now exists masked.
Qed.


(** A run of the loop that returns has appended one record per feature, in
    the order of the features. *)
Lemma feature_loop_returns (feats : list (Feature Geometry)) :
  forall (stats out : list PyDict) (log log' : IOLog),
    feature_loop rb rgt nodata_value global_source feats stats log = (Ok out, log') ->
    exists records, out = stats ++ records /\ Forall2 record_of feats records.
Proof.
  induction feats as [ | feat rest IH]; intros stats out log log'; cbn [feature_loop].
  - unfold ret. intros [= <- _]. exists []. split; [ now rewrite app_nil_r | constructor ].
  - unfold bind at 1.
    destruct (process_feature rb rgt nodata_value global_source feat log)
      as [[d | e] log1] eqn:P; [ | discriminate ].
    intros L. apply IH in L. destruct L as [records [-> F]].
    exists (d :: records). split.
    + now rewrite <- app_assoc.
    + constructor; [ | exact F ]. eapply process_feature_record, P.
Qed.


End Orchestrator.

(** What [zonal_stats] does once both files are open. *)
Lemma zonal_stats_opened {Geometry} {osgeo : OSGeo Geometry}
    (vector_path raster_path : string) (nodata_value : option Q)
    (rds : Dataset) (vlyr : Layer Geometry) (others : DataSource Geometry) :
  gdal_Open raster_path = Some rds ->
  ogr_Open vector_path = Some (vlyr :: others) ->
  exists rb,
    band_of rb = rds
    /\ forall global_src_extent,
        zonal_stats vector_path raster_path nodata_value global_src_extent
        = (global_source <-
             (if global_src_extent
              then source <- read_source rb (GetGeoTransform rds) (GetExtent vlyr) ;;
                   ret (Some source)
              else ret None) ;;
           feature_loop rb (GetGeoTransform rds) nodata_value global_source
                        (features vlyr) []).
Proof.
  intros R V. unfold zonal_stats. rewrite R, V. cbn [nth_error].
  eexists. split; [ | intros; reflexivity ].
  destruct (truthy nodata_value); [ destruct nodata_value | ]; reflexivity.
Qed.

(** C6.  A run that returns yields exactly one record per feature of the
    layer, and the records follow the iteration order of the features: the
    i-th record carries the FID and the HydroID of the i-th feature. *)
Theorem zonal_stats_order_preserved {Geometry} {osgeo : OSGeo Geometry}
    (vector_path raster_path : string) (nodata_value : option Q) (global_src_extent : bool)
    (vlyr : Layer Geometry) (others : DataSource Geometry) (stats : list PyDict) :
  ogr_Open vector_path = Some (vlyr :: others) ->
  outcome (zonal_stats vector_path raster_path nodata_value global_src_extent) = Ok stats ->
  length stats = length (features vlyr)
  /\ Forall2 record_of (features vlyr) stats.
Proof.
  intros V. unfold outcome.
  destruct (gdal_Open raster_path) as [rds | ] eqn:R.
  - destruct (zonal_stats_opened vector_path raster_path nodata_value
                                 rds vlyr others R V) as [rb [_ Z]].
    rewrite Z.
    unfold bind at 1.
    destruct ((if global_src_extent
               then source <- read_source rb (GetGeoTransform rds) (GetExtent vlyr) ;;
                    ret (Some source)
               else ret None) []) as [[gs | e] log1]; [ | discriminate ].
    destruct (feature_loop rb (GetGeoTransform rds) nodata_value gs (features vlyr) [] log1)
      as [out log2] eqn:L.
    cbn [fst]. intros ->.
    apply feature_loop_returns in L. destruct L as [records [-> F]]. cbn [app].
    split; [ | exact F ].
    symmetry. eapply Forall2_length, F.
  - unfold zonal_stats. rewrite R. discriminate.
Qed.

(** C10.  In local-extent mode, with a raster that opens and a layer without
    features, [zonal_stats] returns the empty list and requests no window
    from the raster band. *)
Theorem zonal_stats_no_features {Geometry} {osgeo : OSGeo Geometry}
    (vector_path raster_path : string) (nodata_value : option Q)
    (rds : Dataset) (vlyr : Layer Geometry) (others : DataSource Geometry) :
  gdal_Open raster_path = Some rds ->
  ogr_Open vector_path = Some (vlyr :: others) ->
  features vlyr = [] ->
  outcome (zonal_stats vector_path raster_path nodata_value false) = Ok []
  /\ reads (zonal_stats vector_path raster_path nodata_value false) = [].
Proof.
  intros R V E.
  destruct (zonal_stats_opened vector_path raster_path nodata_value
                               rds vlyr others R V) as [rb [_ Z]].
  unfold outcome, reads. rewrite Z, E. split; reflexivity.
Qed.

(** ** Arrays as grids *)

Lemma flat_map_ext_in {A B} (f g : A -> list B) (l : list A) :
  (forall a, In a l -> f a = g a) -> flat_map f l = flat_map g l.
Proof.
  induction l as [ | a l IH]; cbn; intros H; [ reflexivity | ].
  rewrite (H a) by now left. rewrite IH; [ reflexivity | ].
  intros b Hb. apply H. now right.
Qed.

Lemma flat_map_map {A B C} (g : B -> list C) (h : A -> B) (l : list A) :
  flat_map g (map h l) = flat_map (fun a => g (h a)) l.
Proof. induction l as [ | a l IH]; cbn; [ reflexivity | now rewrite IH ]. Qed.

Lemma map2_app {A B C} (f : A -> B -> C) (l1 l2 : list A) (l1' l2' : list B) :
  length l1 = length l1' ->
  map2 f (l1 ++ l2) (l1' ++ l2') = map2 f l1 l1' ++ map2 f l2 l2'.
Proof.
  revert l1'. induction l1 as [ | a l1 IH]; intros [ | b l1']; cbn; try discriminate.
  - reflexivity.
  - intros [= H]. now rewrite IH.
Qed.

Lemma map2_map {I A B C} (f : A -> B -> C) (g : I -> A) (g' : I -> B) (l : list I) :
  map2 f (map g l) (map g' l) = map (fun i => f (g i) (g' i)) l.
Proof. induction l as [ | i l IH]; cbn; [ reflexivity | now rewrite IH ]. Qed.

Lemma combine_map2 {A B} (l : list A) (l' : list B) : combine l l' = map2 pair l l'.
Proof.
  revert l'. induction l as [ | a l IH]; intros [ | b l']; cbn; try reflexivity.
  now rewrite IH.
Qed.

Lemma grid_length {A} (cell : nat -> nat -> A) (cols rows : nat) :
  length (grid cell cols rows) = (rows * cols)%nat.
Proof.
  unfold grid.
  assert (G : forall l : list nat,
             length (flat_map (fun i => map (fun j => cell j i) (seq 0 cols)) l)
             = (length l * cols)%nat).
  { induction l as [ | i l IH]; cbn; [ reflexivity | ].
    now rewrite length_app, length_map, length_seq, IH. }
  now rewrite G, length_seq.
Qed.

Lemma grid_map {A B} (g : A -> B) (cell : nat -> nat -> A) (cols rows : nat) :
  map g (grid cell cols rows) = grid (fun j i => g (cell j i)) cols rows.
Proof.
  unfold grid. induction (seq 0 rows) as [ | i l IH]; cbn; [ reflexivity | ].
  now rewrite map_app, map_map, IH.
Qed.

Lemma grid_map2 {A B C} (g : A -> B -> C) (cell : nat -> nat -> A) (cell' : nat -> nat -> B)
    (cols rows : nat) :
  map2 g (grid cell cols rows) (grid cell' cols rows)
  = grid (fun j i => g (cell j i) (cell' j i)) cols rows.
Proof.
  unfold grid. induction (seq 0 rows) as [ | i l IH]; cbn; [ reflexivity | ].
  rewrite map2_app by now rewrite !length_map.
  now rewrite map2_map, IH.
Qed.

Lemma grid_ext {A} (cell cell' : nat -> nat -> A) (cols rows : nat) :
  (forall j i, (j < cols)%nat -> (i < rows)%nat -> cell j i = cell' j i) ->
  grid cell cols rows = grid cell' cols rows.
Proof.
  intros H. unfold grid. apply flat_map_ext_in. intros i Hi. apply in_seq in Hi.
  apply map_ext_in. intros j Hj. apply in_seq in Hj. apply H; lia.
Qed.

Lemma tabulate_data {A} (f : Z -> Z -> A) (x0 y0 : Z) (cols rows : nat) :
  data (tabulate f x0 y0 cols rows)
  = grid (fun j i => f (x0 + Z.of_nat j) (y0 + Z.of_nat i)) cols rows.
Proof.
  unfold tabulate, zseq, grid. cbn [data]. rewrite flat_map_map.
  apply flat_map_ext. intros i. now rewrite map_map.
Qed.

(** ** One feature *)

Lemma np_ma_MaskedArray_same_length (a : ndarray Z) (mask : ndarray bool) :
  length (data a) = length (data mask) ->
  np_ma_MaskedArray (Some a) mask = Ok (combine (map Some (data a)) (data mask)).
Proof.
  unfold np_ma_MaskedArray. intros H.
  destruct (data mask) as [ | m [ | m' ms]] eqn:E.
  - rewrite length_map, H. reflexivity.
  - destruct (data a) as [ | v [ | v' vs]]; try discriminate. reflexivity.
  - rewrite length_map, H, Nat.eqb_refl. reflexivity.
Qed.

Lemma np_ma_MaskedArray_None (mask : ndarray bool) :
  length (data mask) <> 1%nat ->
  np_ma_MaskedArray None mask = Raise MaskError.
Proof.
  unfold np_ma_MaskedArray. intros H.
  destruct (data mask) as [ | m [ | m' ms]]; cbn in *; [ reflexivity | lia | reflexivity ].
Qed.

Lemma driver_Create_positive (w h : Z) :
  1 <= w -> 1 <= h -> driver_Create w h = Some (Z.to_nat w, Z.to_nat h).
Proof.
  intros Hw Hh. unfold driver_Create.
  destruct (Z.leb_spec 1 w), (Z.leb_spec 1 h); try lia. reflexivity.
Qed.

Section OneFeature.

Context {Geometry : Type} {osgeo : OSGeo Geometry}.
Variables (rb : Band) (rgt : GeoTransform) (nodata_value : option Q).

(** In local mode the source is read first; the rest of the body is the one
    of global mode. *)
Lemma process_feature_local (feat : Feature Geometry) (log : IOLog) :
  process_feature rb rgt nodata_value None feat log
  = match read_source rb rgt (GetEnvelope (geometry feat)) log with
    | (Ok source, log') => process_feature rb rgt nodata_value (Some source) feat log'
    | (Raise e, log') => (Raise e, log')
    end.
Proof.
  unfold process_feature, bind.
  destruct (read_source rb rgt (GetEnvelope (geometry feat)) log) as [[source | e] log'];
    reflexivity.
Qed.

(** With a window that was read, the feature is tabulated over the cells of
    the window. *)
Lemma process_feature_window_read (feat : Feature Geometry) (x y w h : Z)
    (new_gt : GeoTransform) (log : IOLog) :
  1 <= w -> 1 <= h ->
  process_feature rb rgt nodata_value
    (Some ((x, y, w, h),
           Some (tabulate (pixel (band_of rb)) x y (Z.to_nat w) (Z.to_nat h)),
           new_gt))
    feat log
  = (feature_stats feat
       (window_masked (band_of rb) nodata_value (burns new_gt (geometry feat)) (x, y, w, h)),
     log).
Proof.
  intros Hw Hh. unfold process_feature, bind, ret.
  rewrite (driver_Create_positive w h Hw Hh).
  unfold exclusion_mask, RasterizeLayer, eq_nodata, np_logical_or, np_logical_not, ndmap, lift.
  cbn [fst snd shape tabulate]. rewrite shape_eqb_refl.
  rewrite np_ma_MaskedArray_same_length.
  - cbn [data]. f_equal. f_equal.
    fold (data (tabulate (pixel (band_of rb)) x y (Z.to_nat w) (Z.to_nat h))).
    fold (data (tabulate (fun c r =>
                            if existsb (fun f => burns new_gt (geometry f) c r) [feat]
                            then 1 else 0) 0 0 (Z.to_nat w) (Z.to_nat h))).
    rewrite !tabulate_data, !grid_map, grid_map2, combine_map2, grid_map2.
    unfold window_masked. apply grid_ext. intros j i _ _. cbn [existsb].
    rewrite orb_false_r, !Z.add_0_l.
    destruct (burns new_gt (geometry feat) (Z.of_nat j) (Z.of_nat i)); reflexivity.
  - cbn [data].
    fold (data (tabulate (pixel (band_of rb)) x y (Z.to_nat w) (Z.to_nat h))).
    fold (data (tabulate (fun c r =>
                            if existsb (fun f => burns new_gt (geometry f) c r) [feat]
                            then 1 else 0) 0 0 (Z.to_nat w) (Z.to_nat h))).
    rewrite !tabulate_data, !grid_map, grid_map2, !grid_length. reflexivity.
Qed.

(** With a window whose read failed, the mask has as many cells as the
    window and the data one: unless the window is a single cell the masked
    array cannot be built. *)
Lemma process_feature_window_failed (feat : Feature Geometry) (x y w h : Z)
    (new_gt : GeoTransform) (log : IOLog) :
  w * h <> 1 ->
  exists e,
    fst (process_feature rb rgt nodata_value (Some ((x, y, w, h), None, new_gt)) feat log)
    = Raise e.
Proof.
  intros Hcells. unfold process_feature, bind, ret.
  unfold driver_Create.
  destruct (Z.leb_spec 1 w); [ | now exists AttributeError ].
  destruct (Z.leb_spec 1 h); [ | now exists AttributeError ].
  cbn [andb]. exists MaskError.
  unfold exclusion_mask, RasterizeLayer, eq_nodata, np_logical_or, np_logical_not, ndmap, lift.
  cbn [fst snd].
  rewrite np_ma_MaskedArray_None; [ reflexivity | ].
  cbn [data].
  fold (data (tabulate (fun c r =>
                          if existsb (fun f => burns new_gt (geometry f) c r) [feat]
                          then 1 else 0) 0 0 (Z.to_nat w) (Z.to_nat h))).
  rewrite !length_map, tabulate_data, grid_length. nia.
Qed.

(** What [read_source] returns for the window of a box. *)
Lemma read_source_window (bbox : BBox) (x y w h : Z) (log : IOLog) :
  bbox_to_pixel_offsets rgt bbox = Ok (x, y, w, h) ->
  1 <= w -> 1 <= h ->
  read_source rb rgt bbox log
  = (Ok ((x, y, w, h),
         (if window_in_raster (band_of rb) (x, y, w, h)
          then Some (tabulate (pixel (band_of rb)) x y (Z.to_nat w) (Z.to_nat h))
          else None),
         subset_geotransform rgt (x, y, w, h)),
     log ++ [(x, y, w, h)]).
Proof.
  intros B Hw Hh. unfold read_source, bind, lift. rewrite B.
  unfold ReadAsArray, bind, log_read, raise, ret.
  destruct (Z.ltb_spec w 0); [ lia | ]. destruct (Z.ltb_spec h 0); [ lia | ].
  destruct (Z.eqb_spec w 0); [ lia | ]. destruct (Z.eqb_spec h 0); [ lia | ].
  cbn [orb].
  destruct (window_in_raster (band_of rb) (x, y, w, h)); reflexivity.
Qed.


End OneFeature.

(** In local mode a run returns when every feature has the join key and a
    window with at least one cell inside the raster. *)
Lemma zonal_stats_local_returns {Geometry} {osgeo : OSGeo Geometry}
    (vector_path raster_path : string) (nodata_value : option Q)
    (rds : Dataset) (vlyr : Layer Geometry) (others : DataSource Geometry) :
  gdal_Open raster_path = Some rds ->
  ogr_Open vector_path = Some (vlyr :: others) ->
  (forall feat, In feat (features vlyr) ->
     exists hydro x y w h,
       GetField feat "HydroID" = Ok hydro
       /\ bbox_to_pixel_offsets (GetGeoTransform rds) (GetEnvelope (geometry feat))
          = Ok (x, y, w, h)
       /\ 1 <= w /\ 1 <= h
       /\ window_in_raster rds (x, y, w, h) = true) ->
  exists stats, outcome (zonal_stats vector_path raster_path nodata_value false) = Ok stats.
Proof.
  intros R V H.
  destruct (zonal_stats_opened vector_path raster_path nodata_value
                               rds vlyr others R V) as [rb [Hrb Z]].
  subst rds. unfold outcome. rewrite Z. clear Z.
  erewrite bind_Ok; [ | reflexivity ].
  generalize (@nil PyDict) as stats. generalize (@nil Window) as log.
  revert H. induction (features vlyr) as [ | feat rest IH]; intros H log stats.
  - now exists stats.
  - destruct (H feat (or_introl eq_refl)) as [hydro [x [y [w [h [G [B [Hw [Hh Hin]]]]]]]]].
    cbn [feature_loop]. erewrite bind_Ok.
    2: { rewrite process_feature_local.
         rewrite (read_source_window rb _ _ x y w h log B Hw Hh), Hin.
         rewrite (process_feature_window_read rb _ _ feat x y w h _ _ Hw Hh).
         unfold feature_stats. rewrite G. reflexivity. }
    apply IH. intros g Hg. apply H. now right.
Qed.

(** ** Runs on the reference collaborators *)

Lemma zonal_stats_order_preserved_witness :
  exists stats,
    outcome (run (constant_raster 4 4 21)
                 [polygon_feature 5 70 (rectangle 0 2 2 4);
                  polygon_feature 3 90 (rectangle 1 2 1 2)] None false) = Ok stats
    /\ length stats = 2%nat
    /\ map (fun d => dict_get d "FID") stats = [Some (PyInt 5); Some (PyInt 3)].
Proof.
  assert (E : { stats | outcome (run (constant_raster 4 4 21)
                                     [polygon_feature 5 70 (rectangle 0 2 2 4);
                                      polygon_feature 3 90 (rectangle 1 2 1 2)] None false)
                        = Ok stats }).
  { vm_compute. eexists. reflexivity. }
  destruct E as [stats E]. exists stats. split; [ exact E | ].
  destruct (zonal_stats_order_preserved
              (osgeo := files (constant_raster 4 4 21)
                              [polygon_feature 5 70 (rectangle 0 2 2 4);
                               polygon_feature 3 90 (rectangle 1 2 1 2)])
              "polygons.shp" "raster.tif" None false _ [] stats eq_refl E) as [L F].
  split; [ exact L | ].
  cbn [features layer_of] in F.
  inversion F as [ | f0 d0 fs ds [F0 _] F']; subst.
  inversion F' as [ | f1 d1 fs' ds' [F1 _] F'']; subst.
  inversion F''; subst. cbn [map]. now rewrite F0, F1.
Defined.

Lemma zonal_stats_no_features_witness :
  outcome (run (constant_raster 10 10 21) [] (Some 0%Q) false) = Ok []
  /\ reads (run (constant_raster 10 10 21) [] (Some 0%Q) false) = [].
Proof.
  apply (zonal_stats_no_features (osgeo := files (constant_raster 10 10 21) [])
           "polygons.shp" "raster.tif" (Some 0%Q) (constant_raster 10 10 21) _ []
           eq_refl eq_refl eq_refl).
Defined.

(** With the global extent the window of the (empty) layer is requested even
    though there is no feature. *)
Example zonal_stats_no_features_global_reads :
  reads (run (constant_raster 10 10 21) [] None true) = [(0, 10, 1, 1)].
Proof. reflexivity. Qed.

(** ** Windows that are not inside the raster *)




(** ** A raster filled with its no-data value *)

Lemma grid_In {A} (cell : nat -> nat -> A) (cols rows : nat) (a : A) :
  In a (grid cell cols rows) -> exists j i, a = cell j i.
Proof.
  unfold grid. rewrite in_flat_map. intros [i [_ H]].
  apply in_map_iff in H. destruct H as [j [<- _]]. now exists j, i.
Qed.






(** ** Windows of nested boxes *)

Lemma py_int_Qeq (p q : Q) : (p == q)%Q -> py_int p = py_int q.
Proof.
  intros E. apply Z.le_antisymm; apply py_int_monotone; rewrite E; apply Qle_refl.
Qed.



Lemma Qdiv_le_pos (a b o p : Q) :
  (0 < p)%Q -> (a <= b)%Q -> ((a - o) / p <= (b - o) / p)%Q.
Proof.
  intros Hp H. apply Qle_shift_div_l; [ exact Hp | ].
  assert (E : ((a - o) / p * p == a - o)%Q) by (field; lra).
  rewrite E. lra.
Qed.

Lemma Qdiv_flip (a o p : Q) : ~ (p == 0)%Q -> ((a - o) / p == (o - a) / - p)%Q.
Proof. intros Hp. field. exact Hp. Qed.

Lemma Qdiv_le_neg (a b o p : Q) :
  (p < 0)%Q -> (a <= b)%Q -> ((b - o) / p <= (a - o) / p)%Q.
Proof.
  intros Hp H. rewrite (Qdiv_flip a), (Qdiv_flip b) by lra.
  apply Qle_shift_div_l; [ lra | ].
  assert (E : ((o - b) / - p * - p == o - b)%Q) by (field; lra).
  rewrite E. lra.
Qed.



Lemma bbox_to_pixel_offsets_formula (oX pw rx oY ry ph a b c d : Q) :
  ~ (pw == 0)%Q -> ~ (ph == 0)%Q ->
  bbox_to_pixel_offsets (oX, pw, rx, oY, ry, ph) (a, b, c, d)
  = Ok (py_int ((a - oX) / pw),
        py_int ((d - oY) / ph),
        py_int ((b - oX) / pw) + 1 - py_int ((a - oX) / pw),
        py_int ((c - oY) / ph) + 1 - py_int ((d - oY) / ph)).
Proof.
  intros Hw Hh. unfold bbox_to_pixel_offsets.
  rewrite !(py_div_nonzero _ _ Hw), !(py_div_nonzero _ _ Hh). reflexivity.
Qed.

(** ** Cells outside a sub-window *)









(** ** The two extent strategies *)

Lemma filter_andb {A} (f g : A -> bool) (l : list A) :
  filter (fun a => f a && g a) l = filter g (filter f l).
Proof.
  induction l as [ | a l IH]; cbn; [ reflexivity | ].
  destruct (f a); cbn; rewrite IH; reflexivity.
Qed.



Section Strategies.

Context {Geometry : Type} {osgeo : OSGeo Geometry}.
Variables (rb : Band) (nodata_value : option Q).
Variables (oX pw rx oY ry ph : Q).
Hypothesis north_up : (0 < pw)%Q /\ (ph < 0)%Q.


(** The window of a box within another lies within the window of the
    other. *)
Lemma window_monotone (a b c d a' b' c' d' : Q) (x y w h x' y' w' h' : Z) :
  bbox_within (a, b, c, d) (a', b', c', d') ->
  bbox_to_pixel_offsets (oX, pw, rx, oY, ry, ph) (a, b, c, d) = Ok (x, y, w, h) ->
  bbox_to_pixel_offsets (oX, pw, rx, oY, ry, ph) (a', b', c', d') = Ok (x', y', w', h') ->
  x' <= x /\ x + w <= x' + w' /\ y' <= y /\ y + h <= y' + h'.
Proof.
  destruct north_up as [Hpw Hph]. intros [Ha [Hb [Hc Hd]]].
  rewrite !bbox_to_pixel_offsets_formula by lra.
  intros [= <- <- <- <-] [= <- <- <- <-].
  pose proof (py_int_monotone _ _ (Qdiv_le_pos a' a oX pw Hpw Ha)).
  pose proof (py_int_monotone _ _ (Qdiv_le_pos b b' oX pw Hpw Hb)).
  pose proof (py_int_monotone _ _ (Qdiv_le_neg c' c oY ph Hph Hc)).
  pose proof (py_int_monotone _ _ (Qdiv_le_neg d d' oY ph Hph Hd)).
  lia.
Qed.




End Strategies.





(* ------------------------------------------------------------------ *)
(** * Further properties of the code *)

(** ** The window of a box *)

(** Settles the three parts of the statement below once the outcome of the
    function is known. *)
Ltac outcome_cases :=
  split;
  [ split;
    [ intros [w H]; try discriminate; intuition congruence
    | intros H; try (exfalso; intuition congruence); eexists; reflexivity ]
  | split;
    [ split; intros H; try discriminate; intuition congruence
    | intros e H; try discriminate; injection H as <-; intuition congruence ] ].

(** X1.  In binary64 arithmetic [bbox_to_pixel_offsets] returns a window
    exactly when both pixel sizes are non-zero and the four quotients are
    finite.  It raises [ZeroDivisionError] exactly when the pixel width is
    zero, or the two column quotients are finite and the pixel height is
    zero.  Whatever else it raises is the [OverflowError] or the
    [ValueError] of [int] on a quotient that is infinite or NaN. *)
Theorem bbox_to_pixel_offsets_binary64_errors (oX pw rx oY ry ph a b c d : float) :
  ((exists w, Binary64.bbox_to_pixel_offsets (oX, pw, rx, oY, ry, ph) (a, b, c, d) = Ok w)
   <-> PrimFloat.eqb pw 0 = false /\ PrimFloat.eqb ph 0 = false
       /\ Binary64.finite (Binary64.quotient a oX pw) = true
       /\ Binary64.finite (Binary64.quotient b oX pw) = true
       /\ Binary64.finite (Binary64.quotient d oY ph) = true
       /\ Binary64.finite (Binary64.quotient c oY ph) = true)
  /\ (Binary64.bbox_to_pixel_offsets (oX, pw, rx, oY, ry, ph) (a, b, c, d)
      = Raise ZeroDivisionError
      <-> PrimFloat.eqb pw 0 = true
          \/ (Binary64.finite (Binary64.quotient a oX pw) = true
              /\ Binary64.finite (Binary64.quotient b oX pw) = true
              /\ PrimFloat.eqb ph 0 = true))
  /\ (forall e,
        Binary64.bbox_to_pixel_offsets (oX, pw, rx, oY, ry, ph) (a, b, c, d) = Raise e ->
        e = ZeroDivisionError \/ e = OverflowError \/ e = ValueError).
Proof.
  unfold Binary64.bbox_to_pixel_offsets, Binary64.truediv.
  change ((a - oX) / pw)%float with (Binary64.quotient a oX pw).
  change ((b - oX) / pw)%float with (Binary64.quotient b oX pw).
  change ((d - oY) / ph)%float with (Binary64.quotient d oY ph).
  change ((c - oY) / ph)%float with (Binary64.quotient c oY ph).
  destruct (PrimFloat.eqb pw 0); cbn [rbind]; [ outcome_cases | ].
  destruct (Binary64.finite (Binary64.quotient a oX pw)) eqn:Fa.
  2: { destruct (int_not_finite _ Fa) as [E | E]; rewrite E; cbn [rbind]; outcome_cases. }
  rewrite (int_finite _ Fa); cbn [rbind].
  destruct (Binary64.finite (Binary64.quotient b oX pw)) eqn:Fb.
  2: { destruct (int_not_finite _ Fb) as [E | E]; rewrite E; cbn [rbind]; outcome_cases. }
  rewrite (int_finite _ Fb); cbn [rbind].
  destruct (PrimFloat.eqb ph 0); cbn [rbind]; [ outcome_cases | ].
  destruct (Binary64.finite (Binary64.quotient d oY ph)) eqn:Fd.
  2: { destruct (int_not_finite _ Fd) as [E | E]; rewrite E; cbn [rbind]; outcome_cases. }
  rewrite (int_finite _ Fd); cbn [rbind].
  destruct (Binary64.finite (Binary64.quotient c oY ph)) eqn:Fc.
  2: { destruct (int_not_finite _ Fc) as [E | E]; rewrite E; cbn [rbind]; outcome_cases. }
  rewrite (int_finite _ Fc); cbn [rbind]. outcome_cases.
Qed.

Lemma bbox_to_pixel_offsets_Ok_nonzero (oX pw rx oY ry ph a b c d : Q) (w : Window) :
  bbox_to_pixel_offsets (oX, pw, rx, oY, ry, ph) (a, b, c, d) = Ok w ->
  (~ pw == 0 /\ ~ ph == 0)%Q.
Proof.
  unfold bbox_to_pixel_offsets, py_div.
  destruct (Qeq_bool pw 0) eqn:Ew; cbn [rbind]; [ discriminate | ].
  destruct (Qeq_bool ph 0) eqn:Eh; cbn [rbind]; [ discriminate | ].
  intros _. split; now apply Qeq_bool_neq.
Qed.

(** X2.  For a box with [minX <= maxX] and [minY <= maxY] the sign of the
    pixel sizes decides the window size: the width is at least 1 for a
    positive pixel width and at most 1 for a negative one; the height is at
    least 1 for a negative pixel height and at most 1 for a positive one. *)
Theorem window_size_by_orientation (oX pw rx oY ry ph a b c d : Q) (x y w h : Z) :
  bbox_ordered (a, b, c, d) ->
  bbox_to_pixel_offsets (oX, pw, rx, oY, ry, ph) (a, b, c, d) = Ok (x, y, w, h) ->
  ((0 < pw)%Q -> 1 <= w) /\ ((pw < 0)%Q -> w <= 1)
  /\ ((ph < 0)%Q -> 1 <= h) /\ ((0 < ph)%Q -> h <= 1).
Proof.
  intros [Hab Hcd] B.
  destruct (bbox_to_pixel_offsets_Ok_nonzero _ _ _ _ _ _ _ _ _ _ _ B) as [Hw Hh].
  rewrite (bbox_to_pixel_offsets_formula _ _ _ _ _ _ _ _ _ _ Hw Hh) in B.
  injection B as <- <- <- <-.
  repeat split; intros Hs.
  - pose proof (py_int_monotone _ _ (Qdiv_le_pos a b oX pw Hs Hab)). lia.
  - pose proof (py_int_monotone _ _ (Qdiv_le_neg a b oX pw Hs Hab)). lia.
  - pose proof (py_int_monotone _ _ (Qdiv_le_neg c d oY ph Hs Hcd)). lia.
  - pose proof (py_int_monotone _ _ (Qdiv_le_pos c d oY ph Hs Hcd)). lia.
Qed.

Lemma window_size_by_orientation_witness :
  bbox_to_pixel_offsets (0, 1, 0, 0, 0, 1)%Q (6 # 5, 29 # 5, 11 # 5, 34 # 5)%Q
  = Ok (1, 6, 5, -3)
  /\ (((0 < 1)%Q -> 1 <= 5) /\ ((1 < 0)%Q -> 5 <= 1)
      /\ ((1 < 0)%Q -> 1 <= -3) /\ ((0 < 1)%Q -> -3 <= 1)).
Proof.
  split; [ reflexivity | ].
  apply (window_size_by_orientation 0 1 0 0 0 1 (6 # 5) (29 # 5) (11 # 5) (34 # 5) 1 6 5 (-3)).
  - vm_compute. split; discriminate.
  - reflexivity.
Defined.

(** X3.  On a north-up raster the window grows with the box: the window of a
    box that lies within another box lies within the window of that box. *)
Theorem bbox_to_pixel_offsets_monotone (oX pw rx oY ry ph a b c d a' b' c' d' : Q)
    (x y w h x' y' w' h' : Z) :
  (0 < pw)%Q -> (ph < 0)%Q ->
  bbox_within (a, b, c, d) (a', b', c', d') ->
  bbox_to_pixel_offsets (oX, pw, rx, oY, ry, ph) (a, b, c, d) = Ok (x, y, w, h) ->
  bbox_to_pixel_offsets (oX, pw, rx, oY, ry, ph) (a', b', c', d') = Ok (x', y', w', h') ->
  forall col row, in_window (x, y, w, h) col row -> in_window (x', y', w', h') col row.
Proof.
  intros Hpw Hph Hin B B' col row [Hc Hr].
  pose proof (window_monotone oX pw rx oY ry ph (conj Hpw Hph)
                a b c d a' b' c' d' x y w h x' y' w' h' Hin B B').
  unfold in_window. lia.
Qed.

Lemma bbox_to_pixel_offsets_monotone_witness :
  in_window (0, 0, 11, 11) 3 4.
Proof.
  apply (bbox_to_pixel_offsets_monotone 0 1 0 10 0 (-(1))
           (5 # 2) (7 # 2) (9 # 2) (13 # 2) 0 10 0 10 2 3 2 3 0 0 11 11).
  - reflexivity.
  - reflexivity.
  - vm_compute. repeat split; discriminate.
  - reflexivity.
  - reflexivity.
  - unfold in_window. lia.
Defined.

(** A window that binary64 arithmetic returned, spelled out. *)
Lemma bbox_to_pixel_offsets_binary64_Ok (oX pw rx oY ry ph a b c d : float) (w : Window) :
  Binary64.bbox_to_pixel_offsets (oX, pw, rx, oY, ry, ph) (a, b, c, d) = Ok w ->
  w = (py_int (Binary64.value (Binary64.quotient a oX pw)),
       py_int (Binary64.value (Binary64.quotient d oY ph)),
       py_int (Binary64.value (Binary64.quotient b oX pw)) + 1
       - py_int (Binary64.value (Binary64.quotient a oX pw)),
       py_int (Binary64.value (Binary64.quotient c oY ph)) + 1
       - py_int (Binary64.value (Binary64.quotient d oY ph))).
Proof.
  unfold Binary64.bbox_to_pixel_offsets, Binary64.truediv.
  change ((a - oX) / pw)%float with (Binary64.quotient a oX pw).
  change ((b - oX) / pw)%float with (Binary64.quotient b oX pw).
  change ((d - oY) / ph)%float with (Binary64.quotient d oY ph).
  change ((c - oY) / ph)%float with (Binary64.quotient c oY ph).
  destruct (PrimFloat.eqb pw 0); cbn [rbind]; [ discriminate | ].
  destruct (Binary64.finite (Binary64.quotient a oX pw)) eqn:Fa.
  2: { destruct (int_not_finite _ Fa) as [E | E]; rewrite E; discriminate. }
  rewrite (int_finite _ Fa); cbn [rbind].
  destruct (Binary64.finite (Binary64.quotient b oX pw)) eqn:Fb.
  2: { destruct (int_not_finite _ Fb) as [E | E]; rewrite E; discriminate. }
  rewrite (int_finite _ Fb); cbn [rbind].
  destruct (PrimFloat.eqb ph 0); cbn [rbind]; [ discriminate | ].
  destruct (Binary64.finite (Binary64.quotient d oY ph)) eqn:Fd.
  2: { destruct (int_not_finite _ Fd) as [E | E]; rewrite E; discriminate. }
  rewrite (int_finite _ Fd); cbn [rbind].
  destruct (Binary64.finite (Binary64.quotient c oY ph)) eqn:Fc.
  2: { destruct (int_not_finite _ Fc) as [E | E]; rewrite E; discriminate. }
  rewrite (int_finite _ Fc); cbn [rbind].
  now intros [= <-].
Qed.

(** X20.  Where binary64 arithmetic returns a window and neither the
    subtraction nor the division rounded for any of the four coordinates,
    exact arithmetic on the same numbers returns the same window. *)
Theorem bbox_to_pixel_offsets_binary64_exact (oX pw rx oY ry ph a b c d : float)
    (w : Window) :
  Binary64.bbox_to_pixel_offsets (oX, pw, rx, oY, ry, ph) (a, b, c, d) = Ok w ->
  ~ (Binary64.value pw == 0)%Q -> ~ (Binary64.value ph == 0)%Q ->
  exact_quotient a oX pw -> exact_quotient b oX pw ->
  exact_quotient d oY ph -> exact_quotient c oY ph ->
  bbox_to_pixel_offsets
    (Binary64.value oX, Binary64.value pw, Binary64.value rx,
     Binary64.value oY, Binary64.value ry, Binary64.value ph)
    (Binary64.value a, Binary64.value b, Binary64.value c, Binary64.value d)
  = Ok w.
Proof.
  intros B Hw Hh Ea Eb Ed Ec.
  rewrite (bbox_to_pixel_offsets_binary64_Ok _ _ _ _ _ _ _ _ _ _ _ B).
  rewrite (bbox_to_pixel_offsets_formula _ _ _ _ _ _ _ _ _ _ Hw Hh).
  unfold exact_quotient in *.
  now rewrite (py_int_Qeq _ _ Ea), (py_int_Qeq _ _ Eb), (py_int_Qeq _ _ Ed),
    (py_int_Qeq _ _ Ec).
Qed.

Lemma bbox_to_pixel_offsets_binary64_exact_witness :
  bbox_to_pixel_offsets
    (Binary64.value 0, Binary64.value 1, Binary64.value 0,
     Binary64.value 10, Binary64.value 0, Binary64.value (-1))
    (Binary64.value (-2.5), Binary64.value 3.5, Binary64.value (-1.5), Binary64.value 4.5)
  = Ok (-2, 5, 6, 7).
Proof.
  apply (bbox_to_pixel_offsets_binary64_exact 0 1 0 10 0 (-1) (-2.5) 3.5 (-1.5) 4.5).
  - reflexivity.
  - intros H. vm_compute in H. discriminate.
  - intros H. vm_compute in H. discriminate.
  - vm_compute. reflexivity.
  - vm_compute. reflexivity.
  - vm_compute. reflexivity.
  - vm_compute. reflexivity.
Defined.

(** ** What a run requests and why it raises *)

Lemma zonal_stats_unfold {Geometry} {osgeo : OSGeo Geometry}
    (vector_path raster_path : string) (nodata_value : option Q) (global_src_extent : bool)
    (rds : Dataset) (vlyr : Layer Geometry) (others : DataSource Geometry) :
  gdal_Open raster_path = Some rds ->
  ogr_Open vector_path = Some (vlyr :: others) ->
  zonal_stats vector_path raster_path nodata_value global_src_extent
  = (global_source <-
       (if global_src_extent
        then source <- read_source (zonal_band rds nodata_value) (GetGeoTransform rds)
                                   (GetExtent vlyr) ;;
             ret (Some source)
        else ret None) ;;
     feature_loop (zonal_band rds nodata_value) (GetGeoTransform rds) nodata_value
                  global_source (features vlyr) []).
Proof.
  intros R V. unfold zonal_stats, zonal_band. rewrite R, V. reflexivity.
Qed.

Lemma band_of_zonal_band (rds : Dataset) (nodata_value : option Q) :
  band_of (zonal_band rds nodata_value) = rds.
Proof.
  unfold zonal_band. destruct (truthy nodata_value); [ destruct nodata_value | ]; reflexivity.
Qed.

Lemma bbox_to_pixel_offsets_Raise (oX pw rx oY ry ph : Q) (bbox : BBox) (e : PyError) :
  bbox_to_pixel_offsets (oX, pw, rx, oY, ry, ph) bbox = Raise e ->
  e = ZeroDivisionError /\ zero_pixel_size (oX, pw, rx, oY, ry, ph).
Proof.
  destruct bbox as [[[a b] c] d]. unfold bbox_to_pixel_offsets, py_div, zero_pixel_size.
  destruct (Qeq_bool pw 0) eqn:Ew; cbn [rbind].
  - intros [= <-]. apply Qeq_bool_iff in Ew. split; [ reflexivity | now left ].
  - destruct (Qeq_bool ph 0) eqn:Eh; cbn [rbind]; [ | discriminate ].
    intros [= <-]. apply Qeq_bool_iff in Eh. split; [ reflexivity | now right ].
Qed.

Lemma feature_stats_Raise {Geometry} (feat : Feature Geometry) (masked : MaskedArray)
    (e : PyError) :
  feature_stats feat masked = Raise e ->
  e = KeyError /\ dict_get (fields feat) "HydroID" = None.
Proof.
  unfold feature_stats, GetField.
  destruct (dict_get (fields feat) "HydroID"); cbn [rbind]; [ discriminate | ].
  now intros [= <-].
Qed.

Section Runs.

Context {Geometry : Type} {osgeo : OSGeo Geometry}.
Variables (rb : Band) (nodata_value : option Q).


Lemma ReadAsArray_Raise (w : Window) (log log' : IOLog) (e : PyError) :
  ReadAsArray rb w log = (Raise e, log') -> e = ValueError.
Proof.
  destruct w as [[[x y] w] h]. unfold ReadAsArray, bind, log_read, ret, raise.
  destruct ((w <? 0) || (h <? 0)); [ now intros [= <-] | ].
  destruct ((w =? 0) || (h =? 0) || window_in_raster (band_of rb) (x, y, w, h));
    discriminate.
Qed.

Lemma ReadAsArray_Ok (w : Window) (log log' : IOLog) (src_array : option (ndarray Z)) :
  ReadAsArray rb w log = (Ok src_array, log') -> log' = log ++ [w].
Proof.
  destruct w as [[[x y] w] h]. unfold ReadAsArray, bind, log_read, ret, raise.
  destruct ((w <? 0) || (h <? 0)); [ discriminate | ].
  destruct ((w =? 0) || (h =? 0) || window_in_raster (band_of rb) (x, y, w, h));
    now intros [= _ <-].
Qed.

Lemma read_source_Ok (rgt : GeoTransform) (bbox : BBox) (log log' : IOLog)
    (w : Window) (src_array : option (ndarray Z)) (new_gt : GeoTransform) :
  read_source rb rgt bbox log = (Ok (w, src_array, new_gt), log') ->
  bbox_to_pixel_offsets rgt bbox = Ok w /\ log' = log ++ [w].
Proof.
  unfold read_source, bind, lift.
  destruct (bbox_to_pixel_offsets rgt bbox) as [w0 | e]; [ | discriminate ].
  destruct (ReadAsArray rb w0 log) as [[a | e] l] eqn:R; [ | discriminate ].
  unfold ret. intros [= <- _ _ <-]. split; [ reflexivity | ].
  eapply ReadAsArray_Ok, R.
Qed.

Lemma read_source_Raise (rgt : GeoTransform) (bbox : BBox) (log log' : IOLog) (e : PyError) :
  read_source rb rgt bbox log = (Raise e, log') ->
  (e = ZeroDivisionError /\ zero_pixel_size rgt) \/ e = ValueError.
Proof.
  destruct rgt as [[[[[oX pw] rx] oY] ry] ph].
  unfold read_source, bind, lift.
  destruct (bbox_to_pixel_offsets (oX, pw, rx, oY, ry, ph) bbox) as [w0 | e0] eqn:B.
  - destruct (ReadAsArray rb w0 log) as [[a | e1] l] eqn:R; [ discriminate | ].
    intros [= <- _]. right. eapply ReadAsArray_Raise, R.
  - intros [= <- _]. left. eapply bbox_to_pixel_offsets_Raise, B.
Qed.

(** Once the source is there, the body of the loop is a pure computation: it
    requests nothing from the band and its result does not depend on what
    was requested before. *)
Lemma process_feature_pure (rgt : GeoTransform) (source : Source) (feat : Feature Geometry)
    (log : IOLog) :
  process_feature rb rgt nodata_value (Some source) feat log
  = (fst (process_feature rb rgt nodata_value (Some source) feat []), log).
Proof.
  destruct source as [[[[[x y] w] h] src_array] new_gt].
  unfold process_feature, bind, ret, raise, lift.
  destruct (driver_Create w h); [ | reflexivity ].
  destruct (exclusion_mask _ _ _); [ | reflexivity ].
  destruct (np_ma_MaskedArray _ _); reflexivity.
Qed.

Lemma process_feature_source_Raise (rgt : GeoTransform) (source : Source)
    (feat : Feature Geometry) (log log' : IOLog) (e : PyError) :
  process_feature rb rgt nodata_value (Some source) feat log = (Raise e, log') ->
  e <> AssertionError /\ e <> ZeroDivisionError
  /\ (e = KeyError -> dict_get (fields feat) "HydroID" = None).
Proof.
  destruct source as [[[[[x y] w] h] src_array] new_gt].
  unfold process_feature, bind, ret, raise, lift.
  destruct (driver_Create w h);
    [ | intros [= <- _]; repeat split; discriminate ].
  unfold exclusion_mask, np_logical_or.
  destruct (eq_nodata src_array nodata_value) as [b | a].
  2: destruct (shape_eqb _ _); [ | intros [= <- _]; repeat split; discriminate ].
  all: match goal with
       | |- context [np_ma_MaskedArray ?s ?m] =>
           destruct (np_ma_MaskedArray s m) as [masked | e0] eqn:E
       end.
  2,4: unfold np_ma_MaskedArray in E;
       destruct (data _) as [ | m0 [ | m1 ms]] in E; try discriminate;
       destruct (Nat.eqb _ _) in E; try discriminate;
       injection E as <-; intros [= <- _]; repeat split; discriminate.
  all: destruct (feature_stats feat masked) as [d | e1] eqn:F; [ discriminate | ].
  all: intros [= <- _]; destruct (feature_stats_Raise _ _ _ F) as [-> M].
  all: repeat split; try discriminate; intros _; exact M.
Qed.

(** Why the processing of one feature raises. *)
Lemma process_feature_Raise (rgt : GeoTransform) (global_source : option Source)
    (feat : Feature Geometry) (log log' : IOLog) (e : PyError) :
  process_feature rb rgt nodata_value global_source feat log = (Raise e, log') ->
  e <> AssertionError
  /\ (e = ZeroDivisionError -> zero_pixel_size rgt)
  /\ (e = KeyError -> dict_get (fields feat) "HydroID" = None).
Proof.
  destruct global_source as [source | ].
  - intros P. destruct (process_feature_source_Raise _ _ _ _ _ _ P) as [A [Z K]].
    split; [ exact A | ]. split; [ intros ->; contradiction | exact K ].
  - rewrite process_feature_local.
    destruct (read_source rb rgt (GetEnvelope (geometry feat)) log)
      as [[source | e0] log1] eqn:R.
    + intros P. destruct (process_feature_source_Raise _ _ _ _ _ _ P) as [A [Z K]].
      split; [ exact A | ]. split; [ intros ->; contradiction | exact K ].
    + intros [= <- _].
      destruct (read_source_Raise _ _ _ _ _ R) as [[-> Z] | ->];
        repeat split; try discriminate. intros _. exact Z.
Qed.




(** A loop that raises, raises what the processing of one of its features
    raises. *)
Lemma feature_loop_Raise (rgt : GeoTransform) (global_source : option Source)
    (feats : list (Feature Geometry)) :
  forall stats log log' e,
    feature_loop rb rgt nodata_value global_source feats stats log = (Raise e, log') ->
    exists feat log1 log2,
      In feat feats
      /\ process_feature rb rgt nodata_value global_source feat log1 = (Raise e, log2).
Proof.
  induction feats as [ | feat rest IH]; intros stats log log' e; cbn [feature_loop].
  - discriminate.
  - unfold bind at 1.
    destruct (process_feature rb rgt nodata_value global_source feat log)
      as [[d | e0] log1] eqn:P.
    + intros L. apply IH in L. destruct L as [g [l1 [l2 [Hg Pg]]]].
      exists g, l1, l2. split; [ now right | exact Pg ].
    + intros [= <- <-]. exists feat, log, log1. split; [ now left | exact P ].
Qed.

End Runs.





(** Why a run raises. *)
Lemma zonal_stats_Raise_cases {Geometry} {osgeo : OSGeo Geometry}
    (vector_path raster_path : string) (nodata_value : option Q) (global_src_extent : bool)
    (e : PyError) :
  outcome (zonal_stats vector_path raster_path nodata_value global_src_extent) = Raise e ->
  (gdal_Open raster_path = None /\ e = AssertionError)
  \/ exists rds,
      gdal_Open raster_path = Some rds
      /\ e <> AssertionError
      /\ (e = ZeroDivisionError -> zero_pixel_size (GetGeoTransform rds))
      /\ (e = KeyError ->
          exists vlyr others feat,
            ogr_Open vector_path = Some (vlyr :: others)
            /\ In feat (features vlyr)
            /\ dict_get (fields feat) "HydroID" = None).
Proof.
  unfold outcome. intros H.
  destruct (gdal_Open raster_path) as [rds | ] eqn:R.
  2: { revert H. unfold zonal_stats. rewrite R. intros [= <-]. now left. }
  right. exists rds. split; [ reflexivity | ].
  destruct (ogr_Open vector_path) as [[ | vlyr others] | ] eqn:V.
  1,3: revert H; unfold zonal_stats; rewrite R, V; intros [= <-];
       repeat split; discriminate.
  revert H. rewrite (zonal_stats_unfold _ _ _ _ rds vlyr others R V).
  assert (L : forall gs log,
             fst (feature_loop (zonal_band rds nodata_value) (GetGeoTransform rds)
                               nodata_value gs (features vlyr) [] log) = Raise e ->
             e <> AssertionError
             /\ (e = ZeroDivisionError -> zero_pixel_size (GetGeoTransform rds))
             /\ (e = KeyError ->
                 exists vlyr0 others0 feat,
                   Some (vlyr :: others) = Some (vlyr0 :: others0)
                   /\ In feat (features vlyr0)
                   /\ dict_get (fields feat) "HydroID" = None)).
  { intros gs log.
    destruct (feature_loop _ _ _ gs (features vlyr) [] log) as [r log'] eqn:L.
    cbn [fst]. intros ->.
    apply feature_loop_Raise in L. destruct L as [feat [l1 [l2 [Hin P]]]].
    destruct (process_feature_Raise _ _ _ _ _ _ _ _ P) as [A [Z K]].
    split; [ exact A | ]. split; [ exact Z | ].
    intros Ek. exists vlyr, others, feat. split; [ reflexivity | ]. split; [ exact Hin | ].
    now apply K. }
  destruct global_src_extent.
  - destruct (read_source (zonal_band rds nodata_value) (GetGeoTransform rds)
                          (GetExtent vlyr) []) as [[source | e0] log1] eqn:S.
    + erewrite bind_Ok.
      2: { erewrite bind_Ok; [ reflexivity | exact S ]. }
      apply L.
    + erewrite bind_Raise.
      2: { erewrite bind_Raise; [ reflexivity | exact S ]. }
      intros [= <-].
      destruct (read_source_Raise _ _ _ _ _ _ S) as [[-> Z] | ->];
        repeat split; try discriminate. intros _. exact Z.
  - erewrite bind_Ok; [ | reflexivity ]. apply L.
Qed.

(** X7.  A run raises [AssertionError] exactly when the raster cannot be
    opened, whatever the vector file, the no-data value and the strategy. *)
Theorem zonal_stats_AssertionError_iff {Geometry} {osgeo : OSGeo Geometry}
    (vector_path raster_path : string) (nodata_value : option Q) (global_src_extent : bool) :
  outcome (zonal_stats vector_path raster_path nodata_value global_src_extent)
  = Raise AssertionError
  <-> gdal_Open raster_path = None.
Proof.
  split.
  - intros H. apply zonal_stats_Raise_cases in H.
    destruct H as [[R _] | [rds [_ [A _]]]]; [ exact R | contradiction ].
  - intros R. unfold outcome, zonal_stats. now rewrite R.
Qed.

(** X8.  A run that raises [KeyError] has a layer with a feature that lacks
    the field HydroID: nothing else in a run raises it. *)
Theorem zonal_stats_KeyError_cause {Geometry} {osgeo : OSGeo Geometry}
    (vector_path raster_path : string) (nodata_value : option Q) (global_src_extent : bool) :
  outcome (zonal_stats vector_path raster_path nodata_value global_src_extent)
  = Raise KeyError ->
  exists vlyr others feat,
    ogr_Open vector_path = Some (vlyr :: others)
    /\ In feat (features vlyr)
    /\ dict_get (fields feat) "HydroID" = None.
Proof.
  intros H. apply zonal_stats_Raise_cases in H.
  destruct H as [[_ E] | [rds [_ [_ [_ K]]]]]; [ discriminate | now apply K ].
Qed.

Lemma zonal_stats_KeyError_cause_witness :
  exists vlyr others feat,
    @ogr_Open Polygon
      (files (constant_raster 4 4 21)
             [bare_feature 5 (rectangle 0 2 2 4); bare_feature 3 (rectangle 1 2 1 2)])
      "polygons.shp" = Some (vlyr :: others)
    /\ In feat (features vlyr)
    /\ dict_get (fields feat) "HydroID" = None.
Proof.
  apply (zonal_stats_KeyError_cause
           (osgeo := files (constant_raster 4 4 21)
                           [bare_feature 5 (rectangle 0 2 2 4);
                            bare_feature 3 (rectangle 1 2 1 2)])
           "polygons.shp" "raster.tif" None false).
  vm_compute. reflexivity.
Defined.

(** X9.  With both files open, a run that raises [ZeroDivisionError] has a
    raster whose pixel width or pixel height is zero, and it computed a
    window: the strategy is the global one or the layer has a feature. *)
Theorem zonal_stats_ZeroDivisionError_cause {Geometry} {osgeo : OSGeo Geometry}
    (vector_path raster_path : string) (nodata_value : option Q) (global_src_extent : bool)
    (rds : Dataset) (vlyr : Layer Geometry) (others : DataSource Geometry) :
  gdal_Open raster_path = Some rds ->
  ogr_Open vector_path = Some (vlyr :: others) ->
  outcome (zonal_stats vector_path raster_path nodata_value global_src_extent)
  = Raise ZeroDivisionError ->
  zero_pixel_size (GetGeoTransform rds)
  /\ (global_src_extent = true \/ features vlyr <> []).
Proof.
  intros R V H. split.
  - pose proof (zonal_stats_Raise_cases _ _ _ _ _ H) as C.
    destruct C as [[_ E] | [rds' [R' [_ [Z _]]]]]; [ discriminate | ].
    rewrite R in R'. injection R' as <-. now apply Z.
  - destruct global_src_extent; [ now left | right ].
    intros E. revert H. unfold outcome.
    rewrite (zonal_stats_unfold _ _ _ _ rds vlyr others R V), E. discriminate.
Qed.

Lemma zonal_stats_ZeroDivisionError_cause_witness :
  zero_pixel_size (0, 0, 0, 4, 0, -(1))%Q
  /\ (false = true \/ [polygon_feature 5 70 (rectangle 0 2 2 4)] <> []).
Proof.
  apply (zonal_stats_ZeroDivisionError_cause
           (osgeo := files {| RasterXSize := 4; RasterYSize := 4;
                              GetGeoTransform := (0, 0, 0, 4, 0, -(1))%Q;
                              pixel := fun _ _ => 21 |}
                           [polygon_feature 5 70 (rectangle 0 2 2 4)])
           "polygons.shp" "raster.tif" None false _ _ [] eq_refl eq_refl).
  vm_compute. reflexivity.
Defined.

(** ** A layer without the field HydroID *)


Section Requests.

Context {Geometry : Type} {osgeo : OSGeo Geometry}.
Variables (rb : Band) (rgt : GeoTransform) (nodata_value : option Q).



End Requests.




(** ** Features are processed one by one *)

Lemma Forall2_nth_error {A B} (P : A -> B -> Prop) (l : list A) (l' : list B) :
  Forall2 P l l' ->
  forall i a, nth_error l i = Some a -> exists b, nth_error l' i = Some b /\ P a b.
Proof.
  induction 1 as [ | a0 b0 l l' H F IH]; intros [ | i] a; cbn; try discriminate.
  - intros [= <-]. now exists b0.
  - apply IH.
Qed.

Section Independence.

Context {Geometry : Type} {osgeo : OSGeo Geometry}.
Variables (rb : Band) (rgt : GeoTransform) (nodata_value : option Q).

Lemma read_source_fst_log (bbox : BBox) (log log' : IOLog) :
  fst (read_source rb rgt bbox log) = fst (read_source rb rgt bbox log').
Proof.
  unfold read_source, bind, lift.
  destruct (bbox_to_pixel_offsets rgt bbox) as [[[[x y] w] h] | e]; [ | reflexivity ].
  unfold ReadAsArray, bind, log_read, raise, ret.
  destruct ((w <? 0) || (h <? 0)); [ reflexivity | ].
  destruct ((w =? 0) || (h =? 0) || window_in_raster (band_of rb) (x, y, w, h));
    reflexivity.
Qed.

(** What the processing of a feature yields does not depend on what was
    requested from the band before. *)
Lemma process_feature_fst_log (global_source : option Source) (feat : Feature Geometry)
    (log log' : IOLog) :
  fst (process_feature rb rgt nodata_value global_source feat log)
  = fst (process_feature rb rgt nodata_value global_source feat log').
Proof.
  destruct global_source as [source | ].
  - now rewrite (process_feature_pure _ _ _ _ _ log), (process_feature_pure _ _ _ _ _ log').
  - rewrite !process_feature_local.
    pose proof (read_source_fst_log (GetEnvelope (geometry feat)) log log') as E.
    destruct (read_source rb rgt (GetEnvelope (geometry feat)) log) as [[s | e] l].
    + destruct (read_source rb rgt (GetEnvelope (geometry feat)) log') as [[s' | e'] l'];
        cbn [fst] in E; [ | discriminate ].
      injection E as <-.
      now rewrite (process_feature_pure _ _ _ _ _ l), (process_feature_pure _ _ _ _ _ l').
    + destruct (read_source rb rgt (GetEnvelope (geometry feat)) log') as [[s' | e'] l'];
        cbn [fst] in E; [ discriminate | ].
      now injection E as <-.
Qed.

Lemma feature_loop_returns_steps (global_source : option Source)
    (feats : list (Feature Geometry)) :
  forall stats out log log',
    feature_loop rb rgt nodata_value global_source feats stats log = (Ok out, log') ->
    exists records,
      out = stats ++ records
      /\ Forall2 (fun feat d =>
                    forall l,
                      fst (process_feature rb rgt nodata_value global_source feat l) = Ok d)
                 feats records.
Proof.
  induction feats as [ | feat rest IH]; intros stats out log log'; cbn [feature_loop].
  - unfold ret. intros [= <- _]. exists []. split; [ now rewrite app_nil_r | constructor ].
  - unfold bind at 1.
    destruct (process_feature rb rgt nodata_value global_source feat log)
      as [[d | e] log1] eqn:P; [ | discriminate ].
    intros L. apply IH in L. destruct L as [records [-> F]].
    exists (d :: records). split; [ now rewrite <- app_assoc | ].
    constructor; [ | exact F ].
    intros l. rewrite (process_feature_fst_log _ _ l log), P. reflexivity.
Qed.

(** With unusable sizes the in-memory raster cannot be created. *)
Lemma process_feature_source_degenerate (feat : Feature Geometry) (x y w h : Z)
    (src_array : option (ndarray Z)) (new_gt : GeoTransform) (log : IOLog) :
  w < 1 \/ h < 1 ->
  fst (process_feature rb rgt nodata_value (Some ((x, y, w, h), src_array, new_gt)) feat log)
  = Raise AttributeError.
Proof.
  intros H. unfold process_feature, bind, ret, driver_Create.
  destruct (Z.leb_spec 1 w); destruct (Z.leb_spec 1 h); try reflexivity. lia.
Qed.

End Independence.

(** X10.  With the local strategy the record of a feature does not depend on
    the other features of the layer: if a run over a layer returns, the run
    over a layer that holds only its i-th feature returns the i-th record. *)
Theorem zonal_stats_local_independent {Geometry} {osgeo : OSGeo Geometry}
    (vector_path vector_path' raster_path : string) (nodata_value : option Q)
    (rds : Dataset) (vlyr vlyr' : Layer Geometry) (others others' : DataSource Geometry)
    (feat : Feature Geometry) (i : nat) (stats : list PyDict) :
  gdal_Open raster_path = Some rds ->
  ogr_Open vector_path = Some (vlyr :: others) ->
  ogr_Open vector_path' = Some (vlyr' :: others') ->
  features vlyr' = [feat] ->
  nth_error (features vlyr) i = Some feat ->
  outcome (zonal_stats vector_path raster_path nodata_value false) = Ok stats ->
  exists d,
    nth_error stats i = Some d
    /\ outcome (zonal_stats vector_path' raster_path nodata_value false) = Ok [d].
Proof.
  intros R V V' F' Hi. unfold outcome.
  rewrite (zonal_stats_unfold _ _ _ _ rds vlyr others R V).
  rewrite (zonal_stats_unfold _ _ _ _ rds vlyr' others' R V'), F'.
  erewrite !(bind_Ok (ret None)) by reflexivity.
  destruct (feature_loop _ _ _ None (features vlyr) [] []) as [[out | e] log'] eqn:L;
    [ | discriminate ].
  cbn [fst]. intros [= ->].
  apply feature_loop_returns_steps in L. destruct L as [records [-> S]]. cbn [app].
  destruct (Forall2_nth_error _ _ _ S i feat Hi) as [d [Hd P]].
  exists d. split; [ exact Hd | ].
  cbn [feature_loop]. unfold bind. specialize (P []).
  destruct (process_feature _ _ _ None feat []) as [r l]. cbn [fst] in P. now subst r.
Qed.

Lemma zonal_stats_local_independent_witness :
  exists stats d,
    outcome (@zonal_stats Polygon
               (two_files (constant_raster 4 4 21)
                          [polygon_feature 5 70 (rectangle 0 2 2 4);
                           polygon_feature 3 90 (rectangle 1 2 1 2)]
                          [polygon_feature 3 90 (rectangle 1 2 1 2)])
               "polygons.shp" "raster.tif" None false) = Ok stats
    /\ nth_error stats 1 = Some d
    /\ outcome (@zonal_stats Polygon
                  (two_files (constant_raster 4 4 21)
                             [polygon_feature 5 70 (rectangle 0 2 2 4);
                              polygon_feature 3 90 (rectangle 1 2 1 2)]
                             [polygon_feature 3 90 (rectangle 1 2 1 2)])
                  "other.shp" "raster.tif" None false) = Ok [d].
Proof.
  assert (E : { stats | outcome (@zonal_stats Polygon
                                   (two_files (constant_raster 4 4 21)
                                              [polygon_feature 5 70 (rectangle 0 2 2 4);
                                               polygon_feature 3 90 (rectangle 1 2 1 2)]
                                              [polygon_feature 3 90 (rectangle 1 2 1 2)])
                                   "polygons.shp" "raster.tif" None false) = Ok stats }).
  { vm_compute. eexists. reflexivity. }
  destruct E as [stats E].
  destruct (zonal_stats_local_independent
              (osgeo := two_files (constant_raster 4 4 21)
                                  [polygon_feature 5 70 (rectangle 0 2 2 4);
                                   polygon_feature 3 90 (rectangle 1 2 1 2)]
                                  [polygon_feature 3 90 (rectangle 1 2 1 2)])
              "polygons.shp" "other.shp" "raster.tif" None (constant_raster 4 4 21)
              _ _ [] [] (polygon_feature 3 90 (rectangle 1 2 1 2)) 1 stats
              eq_refl eq_refl eq_refl eq_refl eq_refl E) as [d [N D]].
  exists stats, d. split; [ exact E | ]. split; [ exact N | exact D ].
Defined.



(** ** The two tabulators *)

(** X12.  The dictionary built in [zonal_stats] and the one of
    [get_nlcd_counts] agree: both raise the same exception, or they hold the
    same FID, HydroID and TotalPixels and, class by class, the same count
    under the key ["c"] and the key ["lulc_c"]. *)
Theorem tabulators_agree {Geometry} (feat : Feature Geometry) (masked : MaskedArray) :
  match feature_stats feat masked, get_nlcd_counts feat masked with
  | Ok d, Ok d' =>
      dict_get d "FID" = dict_get d' "FID"
      /\ dict_get d "HydroID" = dict_get d' "HydroID"
      /\ dict_int d "TotalPixels" = dict_int d' "TotalPixels"
      /\ Forall2 (fun key key' => dict_int d key = dict_int d' key' /\ dict_int d key <> None)
                 class_keys lulc_keys
  | Raise e, Raise e' => e = e'
  | _, _ => False
  end.
Proof.
  unfold feature_stats, get_nlcd_counts.
  destruct (GetField feat "HydroID") as [hydro | e]; cbn [rbind]; [ | reflexivity ].
  split; [ reflexivity | ]. split; [ reflexivity | ]. split; [ reflexivity | ].
  repeat (constructor; [ split; [ reflexivity | discriminate ] | ]). constructor.
Qed.

(** X13.  In a dictionary of [get_nlcd_counts] the eight group counts add up
    to the sum of the 20 class counts; so their sum is at most TotalPixels,
    with equality exactly when every cell that is not excluded holds an
    enumerated code. *)
Theorem group_counts_total {Geometry} (feat : Feature Geometry) (masked : MaskedArray)
    (d : PyDict) :
  get_nlcd_counts feat masked = Ok d ->
  exists groups classes total,
    sum_of d group_keys = Some groups
    /\ sum_of d lulc_keys = Some classes
    /\ dict_int d "TotalPixels" = Some total
    /\ groups = classes
    /\ groups <= total
    /\ (groups = total <-> Forall enumerated (unmasked masked)).
Proof.
  intros H. destruct (get_nlcd_counts_inv feat masked d H) as [T S].
  assert (G : sum_of d group_keys = Some (class_total masked nlcd_codes)).
  { revert H. unfold get_nlcd_counts.
    destruct (GetField feat "HydroID") as [hydro | e]; cbn [rbind]; [ | discriminate ].
    intros [= <-]. cbn. f_equal. lia. }
  exists (class_total masked nlcd_codes), (class_total masked nlcd_codes), (ma_count masked).
  pose proof (ma_count_split masked) as Sp.
  pose proof (unclassified_none_iff masked) as Z0.
  repeat split; try assumption.
  - lia.
  - intros E. apply Z0. lia.
  - intros F. apply Z0 in F. lia.
Qed.

Lemma group_counts_total_witness :
  exists d groups classes total,
    get_nlcd_counts (polygon_feature 0 7 [])
                    [(Some 21, false); (Some 5, false); (Some 11, true); (Some 95, false)]
    = Ok d
    /\ sum_of d group_keys = Some groups
    /\ sum_of d lulc_keys = Some classes
    /\ dict_int d "TotalPixels" = Some total
    /\ groups = classes /\ groups <= total.
Proof.
  pose proof (group_counts_total (polygon_feature 0 7 [])
                [(Some 21, false); (Some 5, false); (Some 11, true); (Some 95, false)]
                _ eq_refl) as H.
  destruct H as [groups [classes [total [G [S [T [E [L _]]]]]]]].
  eexists. exists groups, classes, total.
  split; [ reflexivity | ]. repeat split; assumption.
Defined.

Lemma zonal_stats_returns_records {Geometry} {osgeo : OSGeo Geometry}
    (vector_path raster_path : string) (nodata_value : option Q) (global_src_extent : bool)
    (stats : list PyDict) :
  outcome (zonal_stats vector_path raster_path nodata_value global_src_extent) = Ok stats ->
  exists rds vlyr others,
    gdal_Open raster_path = Some rds
    /\ ogr_Open vector_path = Some (vlyr :: others)
    /\ Forall2 record_of (features vlyr) stats.
Proof.
  unfold outcome. intros H.
  destruct (gdal_Open raster_path) as [rds | ] eqn:R.
  2: { revert H. unfold zonal_stats. rewrite R. discriminate. }
  destruct (ogr_Open vector_path) as [[ | vlyr others] | ] eqn:V.
  1,3: revert H; unfold zonal_stats; rewrite R, V; discriminate.
  exists rds, vlyr, others. split; [ reflexivity | ]. split; [ reflexivity | ].
  revert H. rewrite (zonal_stats_unfold _ _ _ _ rds vlyr others R V).
  unfold bind at 1.
  destruct ((if global_src_extent
             then source <- read_source (zonal_band rds nodata_value) (GetGeoTransform rds)
                                        (GetExtent vlyr) ;;
                  ret (Some source)
             else ret None) []) as [[gs | e] log1]; [ | discriminate ].
  destruct (feature_loop _ _ _ gs (features vlyr) [] log1) as [r log2] eqn:L.
  cbn [fst]. intros ->.
  apply feature_loop_returns in L. destruct L as [records [-> F]]. exact F.
Qed.

(** X14.  All records of a run have the same keys in the same order: FID,
    HydroID, TotalPixels and the 20 class codes in ascending order. *)
Theorem zonal_stats_record_keys {Geometry} {osgeo : OSGeo Geometry}
    (vector_path raster_path : string) (nodata_value : option Q) (global_src_extent : bool)
    (stats : list PyDict) :
  outcome (zonal_stats vector_path raster_path nodata_value global_src_extent) = Ok stats ->
  Forall (fun d => map fst d = record_keys) stats.
Proof.
  intros H. apply zonal_stats_returns_records in H.
  destruct H as [rds [vlyr [others [_ [_ F]]]]].
  induction F as [ | feat d feats ds [_ [_ [masked M]]] F IH]; constructor; [ | exact IH ].
  revert M. unfold feature_stats.
  destruct (GetField feat "HydroID") as [hydro | e]; cbn [rbind]; [ | discriminate ].
  now intros [= <-].
Qed.

Lemma zonal_stats_record_keys_witness :
  exists stats,
    outcome (run (constant_raster 4 4 21)
                 [polygon_feature 5 70 (rectangle 0 2 2 4);
                  polygon_feature 3 90 (rectangle 1 2 1 2)] None true) = Ok stats
    /\ Forall (fun d => map fst d = record_keys) stats.
Proof.
  assert (E : { stats | outcome (run (constant_raster 4 4 21)
                                     [polygon_feature 5 70 (rectangle 0 2 2 4);
                                      polygon_feature 3 90 (rectangle 1 2 1 2)] None true)
                        = Ok stats }).
  { vm_compute. eexists. reflexivity. }
  destruct E as [stats E]. exists stats. split; [ exact E | ].
  exact (zonal_stats_record_keys
           (osgeo := files (constant_raster 4 4 21)
                           [polygon_feature 5 70 (rectangle 0 2 2 4);
                            polygon_feature 3 90 (rectangle 1 2 1 2)])
           "polygons.shp" "raster.tif" None true stats E).
Defined.

(** ** The records of a run that returns *)

Lemma fst_eq_pair {A B} (p : A * B) (a : A) : fst p = a -> exists b, p = (a, b).
Proof. destruct p as [a0 b]. cbn. intros ->. now exists b. Qed.

Lemma feature_stats_class_counts {Geometry} (feat : Feature Geometry) (masked : MaskedArray)
    (d : PyDict) :
  feature_stats feat masked = Ok d ->
  dict_int d "TotalPixels" = Some (ma_count masked)
  /\ Forall2 (fun key code => dict_int d key = Some (count_nonzero_eq masked code))
             class_keys nlcd_codes.
Proof.
  unfold feature_stats.
  destruct (GetField feat "HydroID") as [hydro | e]; cbn [rbind]; [ | discriminate ].
  intros [= <-]. split; [ reflexivity | ].
  repeat (constructor; [ reflexivity | ]). constructor.
Qed.

Lemma counts_bounds (masked : MaskedArray) (code : Z) :
  0 <= count_nonzero_eq masked code <= ma_count masked
  /\ ma_count masked <= Z.of_nat (length masked).
Proof.
  unfold count_nonzero_eq, ma_count.
  rewrite (filter_andb (fun c => negb (snd c)) (fun c => datum_eqb (fst c) code)).
  pose proof (filter_length_le (fun c => datum_eqb (fst c) code)
                               (filter (fun c : option Z * bool => negb (snd c)) masked)).
  pose proof (filter_length_le (fun c : option Z * bool => negb (snd c)) masked).
  lia.
Qed.

Section Records.

Context {Geometry : Type} {osgeo : OSGeo Geometry}.
Variables (rb : Band) (rgt : GeoTransform) (nodata_value : option Q).

(** The failed read of a single cell: the mask is resized over the one
    object cell, and the feature is tabulated all the same. *)
Lemma process_feature_single_cell_failed (feat : Feature Geometry) (x y : Z)
    (new_gt : GeoTransform) (log : IOLog) :
  process_feature rb rgt nodata_value (Some ((x, y, 1, 1), None, new_gt)) feat log
  = (feature_stats feat
       [(None, match nodata_value with
               | None => true
               | Some _ => negb (burns new_gt (geometry feat) 0 0)
               end)],
     log).
Proof.
  unfold process_feature, bind, ret, lift, driver_Create.
  change (Z.to_nat 1) with 1%nat. change ((1 <=? 1) && (1 <=? 1)) with true.
  cbv beta iota.
  unfold exclusion_mask, RasterizeLayer, eq_nodata, np_logical_or, np_logical_not, ndmap,
    tabulate, zseq, np_ma_MaskedArray.
  cbn [fst snd seq map flat_map app data shape existsb Z.of_nat Z.add].
  rewrite orb_false_r.
  destruct nodata_value; destruct (burns new_gt (geometry feat) 0 0); reflexivity.
Qed.

(** The masked array behind the record of a feature, for a source that
    [read_source] returned. *)
Lemma process_feature_read_cases (feat : Feature Geometry) (bbox : BBox)
    (x y w h : Z) (src_array : option (ndarray Z)) (new_gt : GeoTransform)
    (log0 log1 log log' : IOLog) (d : PyDict) :
  read_source rb rgt bbox log0 = (Ok ((x, y, w, h), src_array, new_gt), log1) ->
  process_feature rb rgt nodata_value (Some ((x, y, w, h), src_array, new_gt)) feat log
  = (Ok d, log') ->
  bbox_to_pixel_offsets rgt bbox = Ok (x, y, w, h)
  /\ 1 <= w /\ 1 <= h
  /\ ((window_in_raster (band_of rb) (x, y, w, h) = true
       /\ feature_stats feat
            (window_masked (band_of rb) nodata_value
               (burns (subset_geotransform rgt (x, y, w, h)) (geometry feat)) (x, y, w, h))
          = Ok d)
      \/ (window_in_raster (band_of rb) (x, y, w, h) = false
          /\ w = 1 /\ h = 1
          /\ feature_stats feat
               [(None, match nodata_value with
                       | None => true
                       | Some _ => negb (burns (subset_geotransform rgt (x, y, w, h))
                                               (geometry feat) 0 0)
                       end)]
             = Ok d)).
Proof.
  intros S P. destruct (read_source_Ok _ _ _ _ _ _ _ _ S) as [B _].
  split; [ exact B | ].
  assert (Hwh : 1 <= w /\ 1 <= h).
  { destruct (Z_lt_le_dec w 1) as [Hw | Hw]; [ | destruct (Z_lt_le_dec h 1) as [Hh | Hh] ].
    3: now split.
    all: pose proof (process_feature_source_degenerate rb rgt nodata_value feat
                       x y w h src_array new_gt log ltac:(lia)) as D;
         rewrite P in D; discriminate. }
  destruct Hwh as [Hw Hh]. split; [ exact Hw | ]. split; [ exact Hh | ].
  rewrite (read_source_window rb rgt bbox x y w h log0 B Hw Hh) in S.
  destruct (window_in_raster (band_of rb) (x, y, w, h)) eqn:Hin;
    injection S as <- <- _.
  - left. split; [ reflexivity | ].
    rewrite (process_feature_window_read rb rgt nodata_value feat x y w h _ log Hw Hh) in P.
    injection P as P _. exact P.
  - right. split; [ reflexivity | ].
    destruct (Z.eq_dec (w * h) 1) as [E | N].
    + assert (w = 1 /\ h = 1) as [-> ->] by nia.
      split; [ reflexivity | ]. split; [ reflexivity | ].
      rewrite process_feature_single_cell_failed in P. injection P as P _. exact P.
    + destruct (process_feature_window_failed rb rgt nodata_value feat x y w h
                  (subset_geotransform rgt (x, y, w, h)) log N) as [e E].
      rewrite P in E. discriminate.
Qed.

End Records.

(** The records of a run that returns, feature by feature: the window of the
    box the strategy uses has at least one cell; either it lies inside the
    raster and the record tabulates its cells, or it is a single cell whose
    read failed and the record tabulates one cell without a value. *)
Lemma zonal_stats_records_cases {Geometry} {osgeo : OSGeo Geometry}
    (vector_path raster_path : string) (nodata_value : option Q) (global_src_extent : bool)
    (rds : Dataset) (vlyr : Layer Geometry) (others : DataSource Geometry)
    (stats : list PyDict) :
  gdal_Open raster_path = Some rds ->
  ogr_Open vector_path = Some (vlyr :: others) ->
  outcome (zonal_stats vector_path raster_path nodata_value global_src_extent) = Ok stats ->
  Forall2
    (fun feat d =>
       exists x y w h,
         bbox_to_pixel_offsets (GetGeoTransform rds)
           (if global_src_extent then GetExtent vlyr else GetEnvelope (geometry feat))
         = Ok (x, y, w, h)
         /\ 1 <= w /\ 1 <= h
         /\ ((window_in_raster rds (x, y, w, h) = true
              /\ feature_stats feat
                   (window_masked rds nodata_value
                      (burns (subset_geotransform (GetGeoTransform rds) (x, y, w, h))
                             (geometry feat)) (x, y, w, h))
                 = Ok d)
             \/ (window_in_raster rds (x, y, w, h) = false
                 /\ w = 1 /\ h = 1
                 /\ feature_stats feat
                      [(None, match nodata_value with
                              | None => true
                              | Some _ =>
                                  negb (burns (subset_geotransform (GetGeoTransform rds)
                                                                   (x, y, w, h))
                                              (geometry feat) 0 0)
                              end)]
                    = Ok d)))
    (features vlyr) stats.
Proof.
  intros R V. unfold outcome.
  rewrite (zonal_stats_unfold _ _ _ _ rds vlyr others R V).
  set (rb := zonal_band rds nodata_value).
  assert (Hrb : band_of rb = rds) by apply band_of_zonal_band.
  destruct global_src_extent.
  - destruct (read_source rb (GetGeoTransform rds) (GetExtent vlyr) [])
      as [[[[[[[x y] w] h] src_array] new_gt] | e0] log1] eqn:S.
    2: { erewrite bind_Raise; [ discriminate | ].
         erewrite bind_Raise; [ reflexivity | exact S ]. }
    erewrite bind_Ok.
    2: { erewrite bind_Ok; [ reflexivity | exact S ]. }
    destruct (feature_loop rb _ _ _ (features vlyr) [] log1) as [[out | e] log2] eqn:L;
      [ | discriminate ].
    cbn [fst]. intros [= ->].
    apply feature_loop_returns_steps in L. destruct L as [records [-> F]]. cbn [app].
    eapply Forall2_impl; [ | exact F ].
    intros feat d P. destruct (fst_eq_pair _ _ (P [])) as [l P'].
    destruct (process_feature_read_cases rb _ nodata_value feat _ x y w h _ _ _ _ _ _ d S P')
      as [B [Hw [Hh C]]].
    rewrite Hrb in C. exists x, y, w, h. now repeat split.
  - erewrite bind_Ok; [ | reflexivity ].
    destruct (feature_loop rb _ _ None (features vlyr) [] []) as [[out | e] log2] eqn:L;
      [ | discriminate ].
    cbn [fst]. intros [= ->].
    apply feature_loop_returns_steps in L. destruct L as [records [-> F]]. cbn [app].
    eapply Forall2_impl; [ | exact F ].
    intros feat d P. specialize (P []). cbn beta in P.
    rewrite process_feature_local in P.
    destruct (read_source rb (GetGeoTransform rds) (GetEnvelope (geometry feat)) [])
      as [[[[[[[x y] w] h] src_array] new_gt] | e0] log1] eqn:S; [ | discriminate ].
    destruct (fst_eq_pair _ _ P) as [l P'].
    destruct (process_feature_read_cases rb _ nodata_value feat _ x y w h _ _ _ _ _ _ d S P')
      as [B [Hw [Hh C]]].
    rewrite Hrb in C. exists x, y, w, h. now repeat split.
Qed.

Lemma Forall2_Forall_l {A B} (P : A -> B -> Prop) (l : list A) (l' : list B) :
  Forall2 P l l' -> Forall (fun a => exists b, P a b) l.
Proof. induction 1; constructor; [ eexists; eassumption | assumption ]. Qed.

Lemma Forall2_Forall_r {A B} (P : B -> Prop) (l : list A) (l' : list B) :
  Forall2 (fun _ b => P b) l l' -> Forall P l'.
Proof. induction 1; constructor; assumption. Qed.

Lemma window_masked_length (rds : Dataset) (nodata : option Q) (burnt : Z -> Z -> bool)
    (x y w h : Z) :
  0 <= w -> 0 <= h ->
  Z.of_nat (length (window_masked rds nodata burnt (x, y, w, h))) = w * h.
Proof.
  intros Hw Hh. unfold window_masked. rewrite grid_length. nia.
Qed.

(** X15.  In every record of a run that returns, no class count is negative
    or exceeds TotalPixels, and TotalPixels does not exceed the number of
    cells of the window the strategy reads for the feature. *)
Theorem zonal_stats_counts_bounded {Geometry} {osgeo : OSGeo Geometry}
    (vector_path raster_path : string) (nodata_value : option Q) (global_src_extent : bool)
    (rds : Dataset) (vlyr : Layer Geometry) (others : DataSource Geometry)
    (stats : list PyDict) :
  gdal_Open raster_path = Some rds ->
  ogr_Open vector_path = Some (vlyr :: others) ->
  outcome (zonal_stats vector_path raster_path nodata_value global_src_extent) = Ok stats ->
  Forall2
    (fun feat d =>
       exists x y w h total,
         bbox_to_pixel_offsets (GetGeoTransform rds)
           (if global_src_extent then GetExtent vlyr else GetEnvelope (geometry feat))
         = Ok (x, y, w, h)
         /\ dict_int d "TotalPixels" = Some total
         /\ 0 <= total <= w * h
         /\ Forall (fun key => exists c, dict_int d key = Some c /\ 0 <= c <= total)
                   class_keys)
    (features vlyr) stats.
Proof.
  intros R V H.
  eapply Forall2_impl; [ | exact (zonal_stats_records_cases _ _ _ _ _ _ _ _ R V H) ].
  intros feat d [x [y [w [h [B [Hw [Hh C]]]]]]].
  assert (M : exists masked,
             feature_stats feat masked = Ok d /\ Z.of_nat (length masked) = w * h).
  { destruct C as [[_ F] | [_ [-> [-> F]]]].
    - eexists. split; [ exact F | ]. apply window_masked_length; lia.
    - eexists. split; [ exact F | ]. reflexivity. }
  destruct M as [masked [F Len]].
  destruct (feature_stats_class_counts feat masked d F) as [T C2].
  exists x, y, w, h, (ma_count masked).
  split; [ exact B | ]. split; [ exact T | ].
  pose proof (counts_bounds masked 0) as [[_ _] Hle].
  split.
  - unfold ma_count in *. lia.
  - eapply Forall_impl; [ | exact (Forall2_Forall_l _ _ _ C2) ].
    intros key [code K]. exists (count_nonzero_eq masked code).
    split; [ exact K | ]. apply counts_bounds.
Qed.

Lemma zonal_stats_counts_bounded_witness :
  exists stats,
    outcome (run (constant_raster 4 4 21)
                 [polygon_feature 5 70 (rectangle 0 2 2 4)] None false) = Ok stats
    /\ Forall2
         (fun feat d =>
            exists x y w h total,
              bbox_to_pixel_offsets (GetGeoTransform (constant_raster 4 4 21))
                                    (polygon_envelope (geometry feat)) = Ok (x, y, w, h)
              /\ dict_int d "TotalPixels" = Some total
              /\ 0 <= total <= w * h
              /\ Forall (fun key => exists c, dict_int d key = Some c /\ 0 <= c <= total)
                        class_keys)
         [polygon_feature 5 70 (rectangle 0 2 2 4)] stats.
Proof.
  assert (E : { stats | outcome (run (constant_raster 4 4 21)
                                     [polygon_feature 5 70 (rectangle 0 2 2 4)] None false)
                        = Ok stats }).
  { vm_compute. eexists. reflexivity. }
  destruct E as [stats E]. exists stats. split; [ exact E | ].
  exact (zonal_stats_counts_bounded
           (osgeo := files (constant_raster 4 4 21)
                           [polygon_feature 5 70 (rectangle 0 2 2 4)])
           "polygons.shp" "raster.tif" None false (constant_raster 4 4 21) _ [] stats
           eq_refl eq_refl E).
Defined.

Lemma window_masked_nodata_code (rds : Dataset) (q : Q) (burnt : Z -> Z -> bool)
    (w : Window) (code : Z) :
  (inject_Z code == q)%Q ->
  count_nonzero_eq (window_masked rds (Some q) burnt w) code = 0.
Proof.
  intros E. destruct w as [[[x y] xs] ys]. unfold count_nonzero_eq, window_masked.
  replace (filter _ _) with (@nil (option Z * bool)); [ reflexivity | ].
  symmetry. apply filter_nil_iff, Forall_forall. intros c Hc.
  apply grid_In in Hc. destruct Hc as [j [i ->]]. cbn [fst snd datum_eqb].
  destruct (Z.eqb_spec (pixel rds (x + Z.of_nat j) (y + Z.of_nat i)) code) as [-> | N];
    [ | apply andb_false_r ].
  unfold cell_eq_nodata. replace (Qeq_bool (inject_Z code) q) with true; [ reflexivity | ].
  symmetry. now apply Qeq_bool_iff.
Qed.

(** X16.  A class code that is given as the no-data value is never counted:
    in every record of a run that returns, with either strategy, the count
    of that class is 0. *)
Theorem zonal_stats_nodata_class_not_counted {Geometry} {osgeo : OSGeo Geometry}
    (vector_path raster_path : string) (nodata : Q) (global_src_extent : bool)
    (rds : Dataset) (vlyr : Layer Geometry) (others : DataSource Geometry)
    (stats : list PyDict) :
  gdal_Open raster_path = Some rds ->
  ogr_Open vector_path = Some (vlyr :: others) ->
  outcome (zonal_stats vector_path raster_path (Some nodata) global_src_extent) = Ok stats ->
  Forall (fun d =>
            Forall2 (fun key code => (inject_Z code == nodata)%Q -> dict_int d key = Some 0)
                    class_keys nlcd_codes)
         stats.
Proof.
  intros R V H.
  apply (Forall2_Forall_r _ (features vlyr)).
  eapply Forall2_impl; [ | exact (zonal_stats_records_cases _ _ _ _ _ _ _ _ R V H) ].
  intros feat d [x [y [w [h [_ [_ [_ C]]]]]]].
  destruct C as [[_ F] | [_ [_ [_ F]]]];
    destruct (feature_stats_class_counts _ _ _ F) as [_ C2];
    (eapply Forall2_impl; [ | exact C2 ]); intros key code K E; rewrite K; f_equal.
  - now apply window_masked_nodata_code.
  - unfold count_nonzero_eq. cbn [filter fst snd datum_eqb].
    now rewrite andb_false_r.
Qed.

Lemma zonal_stats_nodata_class_not_counted_witness :
  exists stats,
    outcome (run (constant_raster 4 4 21)
                 [polygon_feature 5 70 (rectangle 0 2 2 4)] (Some (21 # 1)) true) = Ok stats
    /\ Forall (fun d =>
                 Forall2 (fun key code =>
                            (inject_Z code == 21 # 1)%Q -> dict_int d key = Some 0)
                         class_keys nlcd_codes)
              stats.
Proof.
  assert (E : { stats | outcome (run (constant_raster 4 4 21)
                                     [polygon_feature 5 70 (rectangle 0 2 2 4)]
                                     (Some (21 # 1)) true) = Ok stats }).
  { vm_compute. eexists. reflexivity. }
  destruct E as [stats E]. exists stats. split; [ exact E | ].
  exact (zonal_stats_nodata_class_not_counted
           (osgeo := files (constant_raster 4 4 21)
                           [polygon_feature 5 70 (rectangle 0 2 2 4)])
           "polygons.shp" "raster.tif" (21 # 1) true (constant_raster 4 4 21) _ [] stats
           eq_refl eq_refl E).
Defined.



(** ** The command line entry point *)

Lemma filter_map_length {A} (p : A -> bool) (l : list A) :
  length (filter p l) = length (filter (fun b : bool => b) (map p l)).
Proof.
  induction l as [ | a l IH]; cbn; [ reflexivity | ].
  destruct (p a); cbn; now rewrite IH.
Qed.

Lemma window_masked_burnt {Geometry} {osgeo : OSGeo Geometry} (rds : Dataset)
    (gt : GeoTransform) (g : Geometry) (x y w h : Z) :
  ma_count (window_masked rds None (burns gt g) (x, y, w, h)) = burnt_cells gt g w h.
Proof.
  unfold ma_count, burnt_cells, window_masked.
  rewrite filter_map_length, grid_map. do 3 f_equal.
  apply grid_ext. intros j i _ _. cbn. apply negb_involutive.
Qed.

(** X18.  The command line entry point calls [zonal_stats] without a no-data
    value and with the local strategy; in the records it obtains,
    TotalPixels is the number of cells of the window of the feature that the
    rasterizer burns when the window lies inside the raster, and 0
    otherwise. *)
Theorem main_stats_total_pixels {Geometry} {osgeo : OSGeo Geometry}
    (vector raster : string)
    (rds : Dataset) (vlyr : Layer Geometry) (others : DataSource Geometry)
    (stats : list PyDict) :
  gdal_Open raster = Some rds ->
  ogr_Open vector = Some (vlyr :: others) ->
  outcome (main_stats vector raster) = Ok stats ->
  Forall2
    (fun feat d =>
       exists x y w h,
         bbox_to_pixel_offsets (GetGeoTransform rds) (GetEnvelope (geometry feat))
         = Ok (x, y, w, h)
         /\ dict_int d "TotalPixels"
            = Some (if window_in_raster rds (x, y, w, h)
                    then burnt_cells (subset_geotransform (GetGeoTransform rds) (x, y, w, h))
                                     (geometry feat) w h
                    else 0))
    (features vlyr) stats.
Proof.
  intros R V H. unfold main_stats in H.
  eapply Forall2_impl; [ | exact (zonal_stats_records_cases _ _ _ _ _ _ _ _ R V H) ].
  intros feat d [x [y [w [h [B [_ [_ C]]]]]]].
  exists x, y, w, h. split; [ exact B | ].
  destruct C as [[-> F] | [-> [_ [_ F]]]];
    destruct (feature_stats_class_counts _ _ _ F) as [T _]; rewrite T; f_equal.
  apply window_masked_burnt.
Qed.

Lemma main_stats_total_pixels_witness :
  exists stats,
    outcome (@main_stats Polygon
               (files (constant_raster 4 4 21) [polygon_feature 5 70 (rectangle 0 2 2 4)])
               "polygons.shp" "raster.tif") = Ok stats
    /\ Forall2
         (fun feat d =>
            exists x y w h,
              bbox_to_pixel_offsets (GetGeoTransform (constant_raster 4 4 21))
                                    (polygon_envelope (geometry feat)) = Ok (x, y, w, h)
              /\ dict_int d "TotalPixels"
                 = Some (if window_in_raster (constant_raster 4 4 21) (x, y, w, h)
                         then @burnt_cells Polygon
                                (files (constant_raster 4 4 21)
                                       [polygon_feature 5 70 (rectangle 0 2 2 4)])
                                (subset_geotransform
                                   (GetGeoTransform (constant_raster 4 4 21)) (x, y, w, h))
                                (geometry feat) w h
                         else 0))
         [polygon_feature 5 70 (rectangle 0 2 2 4)] stats.
Proof.
  assert (E : { stats | outcome (@main_stats Polygon
                                   (files (constant_raster 4 4 21)
                                          [polygon_feature 5 70 (rectangle 0 2 2 4)])
                                   "polygons.shp" "raster.tif") = Ok stats }).
  { vm_compute. eexists. reflexivity. }
  destruct E as [stats E]. exists stats. split; [ exact E | ].
  exact (main_stats_total_pixels
           (osgeo := files (constant_raster 4 4 21)
                           [polygon_feature 5 70 (rectangle 0 2 2 4)])
           "polygons.shp" "raster.tif" (constant_raster 4 4 21) _ [] stats
           eq_refl eq_refl E).
Defined.

(** ** Rotation terms *)

Section Rotation.

Context {Geometry : Type} (osgeo : OSGeo Geometry).
Variables (rotX rotY : Q).

Lemma bbox_to_pixel_offsets_set_rotation (rds : Dataset) (bbox : BBox) :
  bbox_to_pixel_offsets (GetGeoTransform (set_rotation rotX rotY rds)) bbox
  = bbox_to_pixel_offsets (GetGeoTransform rds) bbox.
Proof.
  cbn [set_rotation GetGeoTransform].
  destruct (GetGeoTransform rds) as [[[[[gt0 gt1] gt2] gt3] gt4] gt5]. reflexivity.
Qed.

Lemma subset_geotransform_set_rotation (rds : Dataset) (w : Window) :
  subset_geotransform (GetGeoTransform (set_rotation rotX rotY rds)) w
  = subset_geotransform (GetGeoTransform rds) w.
Proof.
  cbn [set_rotation GetGeoTransform].
  destruct (GetGeoTransform rds) as [[[[[gt0 gt1] gt2] gt3] gt4] gt5]. reflexivity.
Qed.

Lemma ReadAsArray_set_rotation (rds : Dataset) (nodata_value : option Q) (w : Window)
    (log : IOLog) :
  ReadAsArray (zonal_band (set_rotation rotX rotY rds) nodata_value) w log
  = ReadAsArray (zonal_band rds nodata_value) w log.
Proof.
  destruct w as [[[x y] xs] ys]. unfold ReadAsArray. rewrite !band_of_zonal_band.
  reflexivity.
Qed.

Lemma read_source_set_rotation (rds : Dataset) (nodata_value : option Q) (bbox : BBox)
    (log : IOLog) :
  read_source (zonal_band (set_rotation rotX rotY rds) nodata_value)
              (GetGeoTransform (set_rotation rotX rotY rds)) bbox log
  = read_source (zonal_band rds nodata_value) (GetGeoTransform rds) bbox log.
Proof.
  unfold read_source, bind, lift. rewrite bbox_to_pixel_offsets_set_rotation.
  destruct (bbox_to_pixel_offsets (GetGeoTransform rds) bbox) as [w | e]; [ | reflexivity ].
  rewrite ReadAsArray_set_rotation, subset_geotransform_set_rotation. reflexivity.
Qed.

Lemma process_feature_set_rotation (rds : Dataset) (nodata_value : option Q)
    (global_source : option Source) (feat : Feature Geometry) (log : IOLog) :
  @process_feature Geometry (with_rotation osgeo rotX rotY)
    (zonal_band (set_rotation rotX rotY rds) nodata_value)
    (GetGeoTransform (set_rotation rotX rotY rds)) nodata_value global_source feat log
  = @process_feature Geometry osgeo
      (zonal_band rds nodata_value) (GetGeoTransform rds) nodata_value global_source feat log.
Proof.
  destruct global_source as [source | ].
  - reflexivity.
  - unfold process_feature. unfold bind at 1 3.
    change (@GetEnvelope Geometry (with_rotation osgeo rotX rotY))
      with (@GetEnvelope Geometry osgeo).
    rewrite read_source_set_rotation. reflexivity.
Qed.

Lemma feature_loop_set_rotation (rds : Dataset) (nodata_value : option Q)
    (global_source : option Source) (feats : list (Feature Geometry)) :
  forall stats log,
    @feature_loop Geometry (with_rotation osgeo rotX rotY)
      (zonal_band (set_rotation rotX rotY rds) nodata_value)
      (GetGeoTransform (set_rotation rotX rotY rds)) nodata_value global_source
      feats stats log
    = @feature_loop Geometry osgeo
        (zonal_band rds nodata_value) (GetGeoTransform rds) nodata_value global_source
        feats stats log.
Proof.
  induction feats as [ | feat rest IH]; intros stats log; [ reflexivity | ].
  cbn [feature_loop]. unfold bind. rewrite process_feature_set_rotation.
  destruct (process_feature _ _ _ _ feat log) as [[d | e] log1]; [ apply IH | reflexivity ].
Qed.

End Rotation.

(** X19.  The rotation terms of the geotransform play no part: a run on a
    raster whose geotransform has other rotation terms, everything else
    being the same, returns or raises the same and requests the same
    windows. *)
Theorem zonal_stats_ignores_rotation {Geometry} (osgeo : OSGeo Geometry) (rotX rotY : Q)
    (vector_path raster_path : string) (nodata_value : option Q) (global_src_extent : bool)
    (log : IOLog) :
  @zonal_stats Geometry (with_rotation osgeo rotX rotY)
    vector_path raster_path nodata_value global_src_extent log
  = @zonal_stats Geometry osgeo
      vector_path raster_path nodata_value global_src_extent log.
Proof.
  destruct (@gdal_Open Geometry osgeo raster_path) as [rds | ] eqn:R.
  2: { unfold zonal_stats. cbn [gdal_Open with_rotation]. rewrite R. reflexivity. }
  destruct (@ogr_Open Geometry osgeo vector_path) as [[ | vlyr others] | ] eqn:V.
  1,3: unfold zonal_stats; cbn [gdal_Open ogr_Open with_rotation]; rewrite R, V;
       reflexivity.
  rewrite (@zonal_stats_unfold Geometry osgeo _ _ _ _ rds vlyr others R V).
  rewrite (@zonal_stats_unfold Geometry (with_rotation osgeo rotX rotY) _ _ _ _
             (set_rotation rotX rotY rds) vlyr others).
  2: { cbn [gdal_Open with_rotation]. now rewrite R. }
  2: { exact V. }
  unfold bind at 1 3.
  destruct global_src_extent.
  - unfold bind at 1 2. rewrite read_source_set_rotation.
    destruct (read_source (zonal_band rds nodata_value) (GetGeoTransform rds)
                          (GetExtent vlyr) log) as [[source | e] log1]; [ | reflexivity ].
    unfold ret. apply feature_loop_set_rotation.
  - unfold ret. apply feature_loop_set_rotation.
Qed.
